(** * zwave-js-server: session and connection management

    A shallow embedding of [src/lib/server.ts] (classes [Client] and
    [ClientsController]) and of the controller command surface declared in
    [src/lib/controller/incoming_message.ts], followed by the properties
    the design document states about them.

    Conventions.
    - A TypeScript string enum is a record of strings ([ServerCommand],
      [Instance]); the module that declares their values is not part of the
      sources at hand, so the values are parameters.
    - Code that may throw returns a [Completion]; [try]/[catch] is [try_catch].
    - A [WebSocket] is modelled by its ready state; every call the session
      makes on it, and every assignment to a session field, is appended to
      the session's [journal], a ghost record of effects in program order.
    - The session is embedded twice: first as its TypeScript types describe
      it (every parsed frame is a message envelope, a handler family acts
      on the driver), then, in [Untyped], on whatever [JSON.parse] returns
      and with handler families that may change the session and the
      registry as well. *)

From stdpp Require Import base option list strings gmap.
From Stdlib Require Import ZArith Lia Sorted.

Local Open Scope string_scope.
Local Open Scope Z_scope.
Local Open Scope list_scope.

(** ** JSON payloads *)

#[local] Set Warnings "-register-all".

Inductive JSONValue : Type :=
| JNull
| JBool (b : bool)
| JNum (n : Z)
| JStr (s : string)
| JArr (items : list JSONValue)
| JObj (members : list (string * JSONValue)).

(** ** Enumerations imported by server.ts *)

Module ServerCommand.
(** [enum ServerCommand] of ./command: only the member names occur in
    server.ts, the string values are parameters. *)
Class t : Type := {
  initialize : string;
  setApiSchema : string;
  startListening : string;
  updateLogConfig : string;
  getLogConfig : string
}.

Definition values `{t} : list string :=
  [initialize; setApiSchema; startListening; updateLogConfig; getLogConfig].
End ServerCommand.

Module Instance.
(** [enum Instance] of ./instance, again by member name. *)
Class t : Type := {
  controller : string;
  driver : string;
  node : string;
  multicast_group : string;
  broadcast_node : string;
  endpoint : string;
  utils : string
}.

Definition values `{t} : list string :=
  [controller; driver; node; multicast_group; broadcast_node; endpoint; utils].
End Instance.

Module ErrorCode.
(** Modelled from the spec: the [ErrorCode] enum of ./error.  server.ts
    names [unknownError] and [zwaveError]; the codes of the two protocol
    errors are the ones of spec section 7 (schema incompatibility and
    unknown command); any other typed handler error keeps its code. *)
Inductive t : Type :=
| unknownError
| unknownCommand
| schemaIncompatible
| zwaveError
| other (code : string).
End ErrorCode.

(** The seven handler families of [Client.instanceHandlers]. *)
Inductive HandlerFamily : Type :=
| ControllerMessageHandler
| DriverMessageHandler
| NodeMessageHandler
| MulticastGroupMessageHandler
| BroadcastNodeMessageHandler
| EndpointMessageHandler
| UtilsMessageHandler.

(** ** Messages *)

(** [IncomingMessage]: the envelope fields server.ts reads.  [fields] is
    the rest of the message, which only the handler families look at. *)
Record IncomingMessage : Type := {
  messageId : string;
  command : string;
  msg_schemaVersion : Z;
  msg_additionalUserAgentComponents : option (gmap string string);
  config : JSONValue;
  fields : JSONValue
}.

(** What [await handler(msg)] can yield and [sendResultSuccess] is given. *)
Inductive ResultValue : Type :=
| Json (v : JSONValue)
| Undefined
| TheMessage (m : IncomingMessage)
| TheHandlerTable.

Inductive OutgoingMessage : Type :=
| VersionMessage (driverVersion serverVersion : string) (homeId : option Z)
    (minSchema maxSchema : Z)
| ResultSuccess (id : string) (result : ResultValue)
| ResultError (id : string) (errorCode : ErrorCode.t) (args : JSONValue)
| ResultZWaveError (id : string) (zwaveErrorCode : Z) (zwaveErrorMessage : string)
| EventMessage (event : JSONValue).

(** The [messageId] a result message is addressed to. *)
Definition reply_to (m : OutgoingMessage) : option string :=
  match m with
  | ResultSuccess id _ | ResultError id _ _ | ResultZWaveError id _ _ => Some id
  | VersionMessage _ _ _ _ _ | EventMessage _ => None
  end.

Definition is_success (m : OutgoingMessage) : bool :=
  match m with ResultSuccess _ _ => true | _ => false end.

(** ** Failures *)

(** Modelled from the spec: the error classes of ./error.  A [BaseError]
    carries a stable error code and its structured extra fields (spec
    section 7, handler-level typed errors); [ZWaveError] is the controller's
    own error with code and message; everything else is unclassified. *)
Inductive Thrown : Type :=
| BaseError (errorCode : ErrorCode.t) (args : JSONValue)
| ZWaveError (code : Z) (message : string)
| OtherError (description : string).

Definition SchemaIncompatibleError (schemaId : Z) : Thrown :=
  BaseError ErrorCode.schemaIncompatible (JObj [("schemaId", JNum schemaId)]).

Definition UnknownCommandError (cmd : string) : Thrown :=
  BaseError ErrorCode.unknownCommand (JObj [("command", JStr cmd)]).

Inductive Completion (A : Type) : Type :=
| Normal (a : A)
| Throw (e : Thrown).
Arguments Normal {A} a.
Arguments Throw {A} e.

(** ** The transport *)

(** Ready states of an accepted (server-side) socket. *)
Inductive ReadyState : Type := OPEN | CLOSING | CLOSED.

Record WebSocket : Type := { readyState : ReadyState }.

(** [socket.close()]: a closed socket stays closed, any other one starts
    its closing handshake. *)
Definition WebSocket_close (s : WebSocket) : WebSocket :=
  match readyState s with
  | CLOSED => s
  | OPEN | CLOSING => {| readyState := CLOSING |}
  end.

(** ** Client *)

Inductive Field : Type :=
| F_receiveEvents | F_outstandingPing | F_schemaVersion
| F_additionalUserAgentComponents.

Inductive Effect : Type :=
| SocketSend (data : OutgoingMessage) (compress : bool)
| SocketPing
| SocketClose
| Assign (f : Field).

(** The effects that are assignments to a session field. *)
Definition is_assignment (e : Effect) : bool :=
  match e with Assign _ => true | _ => false end.

Record Client : Type := {
  receiveEvents : bool;
  _outstandingPing : bool;
  schemaVersion : Z;
  receiveLogs : bool;
  additionalUserAgentComponents : option (gmap string string);
  socket : WebSocket;
  journal : list Effect
}.

(** The frames handed to [socket.send], oldest first. *)
Definition sent (c : Client) : list (OutgoingMessage * bool) :=
  omap (fun e => match e with SocketSend m z => Some (m, z) | _ => None end)
       (journal c).

Definition record (e : Effect) (c : Client) : Client :=
  {| receiveEvents := receiveEvents c;
     _outstandingPing := _outstandingPing c;
     schemaVersion := schemaVersion c;
     receiveLogs := receiveLogs c;
     additionalUserAgentComponents := additionalUserAgentComponents c;
     socket := socket c;
     journal := journal c ++ [e] |}.

Definition set_receiveEvents (b : bool) (c : Client) : Client :=
  record (Assign F_receiveEvents)
  {| receiveEvents := b;
     _outstandingPing := _outstandingPing c;
     schemaVersion := schemaVersion c;
     receiveLogs := receiveLogs c;
     additionalUserAgentComponents := additionalUserAgentComponents c;
     socket := socket c;
     journal := journal c |}.

Definition set_outstandingPing (b : bool) (c : Client) : Client :=
  record (Assign F_outstandingPing)
  {| receiveEvents := receiveEvents c;
     _outstandingPing := b;
     schemaVersion := schemaVersion c;
     receiveLogs := receiveLogs c;
     additionalUserAgentComponents := additionalUserAgentComponents c;
     socket := socket c;
     journal := journal c |}.

Definition set_schemaVersion (v : Z) (c : Client) : Client :=
  record (Assign F_schemaVersion)
  {| receiveEvents := receiveEvents c;
     _outstandingPing := _outstandingPing c;
     schemaVersion := v;
     receiveLogs := receiveLogs c;
     additionalUserAgentComponents := additionalUserAgentComponents c;
     socket := socket c;
     journal := journal c |}.

Definition set_additionalUserAgentComponents
    (a : option (gmap string string)) (c : Client) : Client :=
  record (Assign F_additionalUserAgentComponents)
  {| receiveEvents := receiveEvents c;
     _outstandingPing := _outstandingPing c;
     schemaVersion := schemaVersion c;
     receiveLogs := receiveLogs c;
     additionalUserAgentComponents := a;
     socket := socket c;
     journal := journal c |}.

Definition set_socket (s : WebSocket) (c : Client) : Client :=
  {| receiveEvents := receiveEvents c;
     _outstandingPing := _outstandingPing c;
     schemaVersion := schemaVersion c;
     receiveLogs := receiveLogs c;
     additionalUserAgentComponents := additionalUserAgentComponents c;
     socket := s;
     journal := journal c |}.

(** [get isConnected()] *)
Definition isConnected (c : Client) : bool :=
  match readyState (socket c) with
  | OPEN => true
  | CLOSING | CLOSED => false
  end.

(** [socket.send(JSON.stringify(data), { compress })] *)
Definition socket_send (data : OutgoingMessage) (compress : bool) (c : Client) : Client :=
  record (SocketSend data compress) c.

Definition socket_ping (c : Client) : Client := record SocketPing c.

Definition socket_close (c : Client) : Client :=
  record SocketClose (set_socket (WebSocket_close (socket c)) c).

(** [sendData(data, compress = false)] *)
Definition sendData (data : OutgoingMessage) (compress : bool) (c : Client) : Client :=
  socket_send data compress c.

(** [sendResultSuccess(messageId, result, compress = false)] *)
Definition sendResultSuccess (id : string) (result : ResultValue) (compress : bool)
    (c : Client) : Client :=
  sendData (ResultSuccess id result) compress c.

(** [sendResultError(messageId, errorCode, args)] *)
Definition sendResultError (id : string) (errorCode : ErrorCode.t) (args : JSONValue)
    (c : Client) : Client :=
  sendData (ResultError id errorCode args) false c.

(** [sendResultZWaveError(messageId, zjsErrorCode, message)] *)
Definition sendResultZWaveError (id : string) (zjsErrorCode : Z) (message : string)
    (c : Client) : Client :=
  sendData (ResultZWaveError id zjsErrorCode message) false c.

(** [sendEvent(event)] *)
Definition sendEvent (event : JSONValue) (c : Client) : Client :=
  sendData (EventMessage event) false c.

(** [disconnect()] *)
Definition disconnect (c : Client) : Client := socket_close c.

(** [checkAlive()] *)
Definition checkAlive (c : Client) : Client :=
  if _outstandingPing c then disconnect c
  else socket_ping (set_outstandingPing true c).

(** The [pong] listener installed by the constructor. *)
Definition on_pong (c : Client) : Client := set_outstandingPing false c.

(** ** The session's view of its collaborators *)

(** The constants of ./const. *)
Class Constants : Type := {
  minSchemaVersion : Z;
  maxSchemaVersion : Z;
  version : string;
  libVersion : string
}.

(** The shared controller and the code around the session that server.ts
    calls but does not define: [JSON.parse] typed as in [receiveMessage],
    [dumpState] and [dumpLogConfig] of ./state, [driver.updateLogConfig],
    and [handle] of each handler family.  Each may throw; a handler
    family is seen through what its promise settles to and what it does to
    the shared controller.  This is the session as its TypeScript types
    describe it: every parsed frame is a message envelope, and a handler
    acts on the driver.  The part on unvalidated frames below makes
    neither assumption. *)
Class Collaborators : Type := {
  Driver : Type;
  JSON_parse : string -> option IncomingMessage;
  dumpState : Driver -> Z -> Completion JSONValue;
  dumpLogConfig : Driver -> Z -> Completion JSONValue;
  Driver_updateLogConfig : Driver -> JSONValue -> Completion unit * Driver;
  Driver_homeId : Driver -> option Z;
  handle : HandlerFamily -> IncomingMessage -> Driver -> Completion ResultValue * Driver
}.

(** ** Property lookup on the [instanceHandlers] object *)

(** The properties every object literal inherits from [Object.prototype]. *)
Inductive ObjectPrototypeMember : Type :=
| P_constructor | P_toString | P_toLocaleString | P_valueOf
| P_hasOwnProperty | P_isPrototypeOf | P_propertyIsEnumerable
| P_defineGetter | P_defineSetter | P_lookupGetter | P_lookupSetter
| P_proto.

Definition Object_prototype : list (string * ObjectPrototypeMember) :=
  [("constructor", P_constructor); ("toString", P_toString);
   ("toLocaleString", P_toLocaleString); ("valueOf", P_valueOf);
   ("hasOwnProperty", P_hasOwnProperty); ("isPrototypeOf", P_isPrototypeOf);
   ("propertyIsEnumerable", P_propertyIsEnumerable);
   ("__defineGetter__", P_defineGetter); ("__defineSetter__", P_defineSetter);
   ("__lookupGetter__", P_lookupGetter); ("__lookupSetter__", P_lookupSetter);
   ("__proto__", P_proto)].

Fixpoint assoc {A : Type} (key : string) (l : list (string * A)) : option A :=
  match l with
  | [] => None
  | (k, v) :: rest => if String.eqb key k then Some v else assoc key rest
  end.

(** What [obj[key]] evaluates to for the object literal [instanceHandlers]:
    an own property, else a property of [Object.prototype], else
    [undefined]. *)
Inductive Property : Type :=
| OwnHandler (h : HandlerFamily)
| Inherited (m : ObjectPrototypeMember)
| NoProperty.

(** Calling an inherited member as [instanceHandlers[key](msg)], for a
    message that does not itself redefine [toString] or [valueOf].  The
    accessor [__proto__] yields an object, and the two [__define...__]
    members need a callable second argument: these three throw a
    [TypeError]. *)
Definition call_inherited (m : ObjectPrototypeMember) (msg : IncomingMessage)
    : Completion ResultValue :=
  match m with
  | P_constructor => Normal (TheMessage msg)
  | P_toString | P_toLocaleString => Normal (Json (JStr "[object Object]"))
  | P_valueOf => Normal TheHandlerTable
  | P_hasOwnProperty | P_isPrototypeOf | P_propertyIsEnumerable =>
      Normal (Json (JBool false))
  | P_lookupGetter | P_lookupSetter => Normal Undefined
  | P_defineGetter | P_defineSetter | P_proto => Throw (OtherError "TypeError")
  end.

(** The separator of [command.split(".")]. *)
Definition dot : Ascii.ascii := Ascii.ascii_of_nat 46.

(** [command.split(".")[0]]: the text before the first dot. *)
Fixpoint split_dot_first (s : string) : string :=
  match s with
  | EmptyString => EmptyString
  | String a rest =>
      if Ascii.eqb a dot then EmptyString else String a (split_dot_first rest)
  end.

Section Session.
Context `{ServerCommand.t} `{Instance.t} `{Constants} `{Collaborators}.

(** ** A state and exception monad for session code

    The code of a session runs against the session itself and the shared
    controller. *)
Definition Ctx : Type := Client * Driver.

Definition M (A : Type) : Type := Ctx -> Completion A * Ctx.

Definition ret {A} (a : A) : M A := fun s => (Normal a, s).

Definition bind {A B} (m : M A) (k : A -> M B) : M B :=
  fun s =>
    match m s with
    | (Normal a, s') => k a s'
    | (Throw e, s') => (Throw e, s')
    end.

Definition throw {A} (e : Thrown) : M A := fun s => (Throw e, s).

Definition try_catch (body : M unit) (handler : Thrown -> M unit) : M unit :=
  fun s =>
    match body s with
    | (Normal tt, s') => (Normal tt, s')
    | (Throw e, s') => handler e s'
    end.

Definition this : M Client := fun s => (Normal (fst s), s).

(** Run a method of the session. *)
Definition self (f : Client -> Client) : M unit :=
  fun s => (Normal tt, (f (fst s), snd s)).

(** Read the shared controller with a function that may throw. *)
Definition ask {A} (f : Driver -> Completion A) : M A :=
  fun s => (f (snd s), s).

(** Call into the shared controller. *)
Definition call {A} (f : Driver -> Completion A * Driver) : M A :=
  fun s => let '(r, d) := f (snd s) in (r, (fst s, d)).

#[local] Instance M_ret : MRet M := @ret.
#[local] Instance M_bind : MBind M := fun A B k m => bind m k.

(** [instanceHandlers]: the own properties, in the order of the object
    literal (a later key overrides an equal earlier one). *)
Definition instanceHandlers : gmap string HandlerFamily :=
  <[Instance.utils := UtilsMessageHandler]>
  (<[Instance.endpoint := EndpointMessageHandler]>
  (<[Instance.broadcast_node := BroadcastNodeMessageHandler]>
  (<[Instance.multicast_group := MulticastGroupMessageHandler]>
  (<[Instance.node := NodeMessageHandler]>
  (<[Instance.driver := DriverMessageHandler]>
  (<[Instance.controller := ControllerMessageHandler]> ∅)))))).

(** [this.instanceHandlers[instance]] *)
Definition instanceHandlers_get (instance : string) : Property :=
  match instanceHandlers !! instance with
  | Some h => OwnHandler h
  | None =>
      match assoc instance Object_prototype with
      | Some m => Inherited m
      | None => NoProperty
      end
  end.

(** [await this.instanceHandlers[instance](msg)] *)
Definition call_property (p : Property) (msg : IncomingMessage) : M ResultValue :=
  match p with
  | OwnHandler h => call (handle h msg)
  | Inherited m => ask (fun _ => call_inherited m msg)
  | NoProperty => throw (OtherError "TypeError")
  end.

(** [setSchemaVersion(schemaVersion)] *)
Definition setSchemaVersion (v : Z) : M unit :=
  self (set_schemaVersion v) ;;
  c ← this;
  if (schemaVersion c <? minSchemaVersion) || (schemaVersion c >? maxSchemaVersion)
  then throw (SchemaIncompatibleError (schemaVersion c))
  else ret tt.

(** The [try] block of [receiveMessage]. *)
Definition dispatch (msg : IncomingMessage) : M unit :=
  if String.eqb (command msg) ServerCommand.initialize then
    setSchemaVersion (msg_schemaVersion msg) ;;
    self (set_additionalUserAgentComponents (msg_additionalUserAgentComponents msg)) ;;
    self (sendResultSuccess (messageId msg) (Json (JObj [])) false)
  else if String.eqb (command msg) ServerCommand.setApiSchema then
    setSchemaVersion (msg_schemaVersion msg) ;;
    self (sendResultSuccess (messageId msg) (Json (JObj [])) false)
  else if String.eqb (command msg) ServerCommand.startListening then
    c ← this;
    state ← ask (fun d => dumpState d (schemaVersion c));
    self (sendResultSuccess (messageId msg) (Json (JObj [("state", state)])) true) ;;
    self (set_receiveEvents true)
  else if String.eqb (command msg) ServerCommand.updateLogConfig then
    call (fun d => Driver_updateLogConfig d (config msg)) ;;
    self (sendResultSuccess (messageId msg) (Json (JObj [])) false)
  else if String.eqb (command msg) ServerCommand.getLogConfig then
    c ← this;
    cfg ← ask (fun d => dumpLogConfig d (schemaVersion c));
    self (sendResultSuccess (messageId msg) (Json (JObj [("config", cfg)])) false)
  else
    let instance := split_dot_first (command msg) in
    match instanceHandlers_get instance with
    | NoProperty => throw (UnknownCommandError (command msg))
    | p =>
        result ← call_property p msg;
        self (sendResultSuccess (messageId msg) result false)
    end.

(** The [catch] block of [receiveMessage]. *)
Definition report (msg : IncomingMessage) (err : Thrown) : M unit :=
  match err with
  | BaseError errorCode args => self (sendResultError (messageId msg) errorCode args)
  | ZWaveError code message => self (sendResultZWaveError (messageId msg) code message)
  | OtherError _ => self (sendResultError (messageId msg) ErrorCode.unknownError (JObj []))
  end.

(** [receiveMessage(data)] *)
Definition receiveMessage (data : string) : M unit :=
  match JSON_parse data with
  | None => self socket_close
  | Some msg => try_catch (dispatch msg) (report msg)
  end.

(** [sendVersion()] *)
Definition sendVersion (d : Driver) (c : Client) : Client :=
  sendData (VersionMessage libVersion version (Driver_homeId d)
              minSchemaVersion maxSchemaVersion) false c.

(** [new Client(socket, ...)]: the field initialisers. *)
Definition new_Client (s : WebSocket) : Client :=
  {| receiveEvents := false;
     _outstandingPing := false;
     schemaVersion := minSchemaVersion;
     receiveLogs := false;
     additionalUserAgentComponents := None;
     socket := s;
     journal := [] |}.

(** The session accepts [v] when the range check of [setSchemaVersion]
    does not throw. *)
Definition compatible (v : Z) : Prop :=
  minSchemaVersion <= v <= maxSchemaVersion.

End Session.

(** ** Forwarders *)

(** Modelled from the spec: the [LoggingEventForwarder] class of ./logging,
    reduced to what spec section 4.5 says of it: a boolean running state
    distinct from existence, set by [start] (which applies the optional
    context filter) and cleared by [stop]. *)
Record LoggingEventForwarder : Type := {
  started : bool;
  contextFilter : option JSONValue
}.

Definition LoggingEventForwarder_new : LoggingEventForwarder :=
  {| started := false; contextFilter := None |}.

Definition LoggingEventForwarder_start (f : option JSONValue)
    (fw : LoggingEventForwarder) : LoggingEventForwarder :=
  {| started := true; contextFilter := f |}.

Definition LoggingEventForwarder_stop (fw : LoggingEventForwarder)
    : LoggingEventForwarder :=
  {| started := false; contextFilter := contextFilter fw |}.

(** Modelled from the spec: the [EventForwarder] class of ./forward (spec
    section 4.4): it subscribes to the controller's event stream once. *)
Record EventForwarder : Type := { subscribed : bool }.

Definition EventForwarder_start (fw : EventForwarder) : EventForwarder :=
  {| subscribed := true |}.

(** ** ClientsController *)

Module ClientsController.

Record t : Type := {
  clients : list Client;
  pingInterval : bool;  (* whether the interval timer has been created *)
  eventForwarder : option EventForwarder;
  cleanupScheduled : bool;
  loggingEventForwarder : option LoggingEventForwarder
}.

(** The field initialisers of the class. *)
Definition new : t :=
  {| clients := [];
     pingInterval := false;
     eventForwarder := None;
     cleanupScheduled := false;
     loggingEventForwarder := None |}.

Definition set_clients (l : list Client) (cc : t) : t :=
  {| clients := l;
     pingInterval := pingInterval cc;
     eventForwarder := eventForwarder cc;
     cleanupScheduled := cleanupScheduled cc;
     loggingEventForwarder := loggingEventForwarder cc |}.

Definition set_pingInterval (b : bool) (cc : t) : t :=
  {| clients := clients cc;
     pingInterval := b;
     eventForwarder := eventForwarder cc;
     cleanupScheduled := cleanupScheduled cc;
     loggingEventForwarder := loggingEventForwarder cc |}.

Definition set_eventForwarder (f : option EventForwarder) (cc : t) : t :=
  {| clients := clients cc;
     pingInterval := pingInterval cc;
     eventForwarder := f;
     cleanupScheduled := cleanupScheduled cc;
     loggingEventForwarder := loggingEventForwarder cc |}.

Definition set_cleanupScheduled (b : bool) (cc : t) : t :=
  {| clients := clients cc;
     pingInterval := pingInterval cc;
     eventForwarder := eventForwarder cc;
     cleanupScheduled := b;
     loggingEventForwarder := loggingEventForwarder cc |}.

Definition set_loggingEventForwarder (f : option LoggingEventForwarder) (cc : t) : t :=
  {| clients := clients cc;
     pingInterval := pingInterval cc;
     eventForwarder := eventForwarder cc;
     cleanupScheduled := cleanupScheduled cc;
     loggingEventForwarder := f |}.

(** [get loggingEventForwarderStarted()] *)
Definition loggingEventForwarderStarted (cc : t) : bool :=
  match loggingEventForwarder cc with
  | Some fw => started fw
  | None => false
  end.

(** [configureLoggingEventForwarder(filter?)] *)
Definition configureLoggingEventForwarder (f : option JSONValue) (cc : t) : t :=
  let cc1 :=
    match loggingEventForwarder cc with
    | None => set_loggingEventForwarder (Some LoggingEventForwarder_new) cc
    | Some _ => cc
    end in
  if negb (loggingEventForwarderStarted cc1)
  then set_loggingEventForwarder
         (LoggingEventForwarder_start f <$> loggingEventForwarder cc1) cc1
  else cc1.

(** The number of registered sessions that receive logs:
    [this.clients.filter((cl) => cl.receiveLogs).length]. *)
Definition logListeners (cc : t) : nat :=
  length (List.filter receiveLogs (clients cc)).

(** [cleanupLoggingEventForwarder()] *)
Definition cleanupLoggingEventForwarder (cc : t) : t :=
  if Nat.eqb (logListeners cc) 0 && loggingEventForwarderStarted cc
  then set_loggingEventForwarder
         (LoggingEventForwarder_stop <$> loggingEventForwarder cc) cc
  else cc.

(** [cleanupClients()] *)
Definition cleanupClients (cc : t) : t :=
  let cc1 := set_cleanupScheduled false cc in
  let cc2 := set_clients (List.filter isConnected (clients cc1)) cc1 in
  cleanupLoggingEventForwarder cc2.

(** One turn of the loop in the interval callback: a connected client is
    pushed onto [newClients], any other is told to disconnect.  The
    second list collects the clients that leave the registry. *)
Definition tick_step (acc : list Client * list Client) (client : Client)
    : list Client * list Client :=
  if isConnected client
  then (acc.1 ++ [client], acc.2)
  else (acc.1, acc.2 ++ [disconnect client]).

(** The callback given to [setInterval] in [addSocket]; the result pairs
    the controller with the clients it dropped. *)
Definition pingInterval_callback (cc : t) : t * list Client :=
  let '(newClients, dropped) := foldl tick_step ([], []) (clients cc) in
  (set_clients newClients cc, dropped).

(** [clients.forEach((client) => client.disconnect())] *)
Definition disconnect_each (l : list Client) : list Client := map disconnect l.

(** [disconnect()]: the second component holds the disconnected clients. *)
Definition disconnect (cc : t) : t * list Client :=
  let cc1 := set_pingInterval false cc in
  let closed := disconnect_each (clients cc1) in
  let cc2 := set_clients [] cc1 in
  (cleanupLoggingEventForwarder cc2, closed).

End ClientsController.

(** ** The event loop around the controller *)

(** Callbacks handed to [setTimeout(..., 0)]. *)
Inductive Callback : Type := CleanupClients.

Section Runtime.
Context `{ServerCommand.t} `{Instance.t} `{Constants} `{Collaborators}.

Record World : Type := {
  sockets : ClientsController.t;
  shared : Driver;
  timeouts : list Callback  (* zero-delay timers not yet run, oldest first *)
}.

Definition with_sockets (f : ClientsController.t -> ClientsController.t)
    (w : World) : World :=
  {| sockets := f (sockets w); shared := shared w; timeouts := timeouts w |}.

(** [addSocket(socket)] *)
Definition addSocket (s : WebSocket) (w : World) : World :=
  let client := sendVersion (shared w) (new_Client s) in
  let cc := sockets w in
  let cc1 := ClientsController.set_clients (ClientsController.clients cc ++ [client]) cc in
  let cc2 := if ClientsController.pingInterval cc1 then cc1
             else ClientsController.set_pingInterval true cc1 in
  let cc3 := match ClientsController.eventForwarder cc2 with
             | None => ClientsController.set_eventForwarder
                         (Some (EventForwarder_start {| subscribed := false |})) cc2
             | Some _ => cc2
             end in
  {| sockets := cc3; shared := shared w; timeouts := timeouts w |}.

(** [scheduleClientCleanup()] *)
Definition scheduleClientCleanup (w : World) : World :=
  if ClientsController.cleanupScheduled (sockets w) then w
  else {| sockets := ClientsController.set_cleanupScheduled true (sockets w);
          shared := shared w;
          timeouts := timeouts w ++ [CleanupClients] |}.

(** The [close] listener that [addSocket] installs on every socket. *)
Definition on_close (w : World) : World := scheduleClientCleanup w.

Definition run_callback (w : World) (cb : Callback) : World :=
  match cb with
  | CleanupClients => with_sockets ClientsController.cleanupClients w
  end.

(** One turn of the scheduler: every pending zero-delay timer runs once,
    in the order it was set. *)
Definition run_timeouts (w : World) : World :=
  foldl run_callback
    {| sockets := sockets w; shared := shared w; timeouts := [] |}
    (timeouts w).

(** The interval timer fires. *)
Definition heartbeat_tick (w : World) : World :=
  with_sockets (fun cc => (ClientsController.pingInterval_callback cc).1) w.

(** The transport of the [i]-th registered session reaches CLOSED (the
    peer went away); the library then emits [close]. *)
Definition transport_closed (i : nat) (w : World) : World :=
  with_sockets (fun cc =>
    ClientsController.set_clients
      (alter (set_socket {| readyState := CLOSED |}) i (ClientsController.clients cc)) cc) w.

(** The [message] listener of the [i]-th registered session. *)
Definition on_message (i : nat) (data : string) (w : World) : World :=
  match ClientsController.clients (sockets w) !! i with
  | None => w
  | Some c =>
      let '(_, (c', d')) := receiveMessage data (c, shared w) in
      {| sockets := ClientsController.set_clients
                      (<[i := c']> (ClientsController.clients (sockets w))) (sockets w);
         shared := d';
         timeouts := timeouts w |}
  end.

(** Modelled from the spec: event delivery by the [EventForwarder] of
    ./forward (spec section 4.4): each domain event is delivered, as an
    event envelope, to every currently registered session with
    [receiveEvents = true], in registry order. *)
Definition forwardEvent (event : JSONValue) (w : World) : World :=
  with_sockets (fun cc =>
    ClientsController.set_clients
      (map (fun c => if receiveEvents c then sendEvent event c else c)
           (ClientsController.clients cc)) cc) w.

(** A transport closes and its [close] listener runs. *)
Definition close_notification (w : World) (i : nat) : World :=
  on_close (transport_closed i w).

(** At most one cleanup pass is pending, and [cleanupScheduled] says
    whether one is. *)
Definition coalesced (w : World) : Prop :=
  timeouts w =
    if ClientsController.cleanupScheduled (sockets w) then [CleanupClients] else [].

(** The worlds the gateway can be in: it starts with an empty registry and
    then sockets are accepted, messages arrive, events are published,
    transports close, the heartbeat fires and the scheduler runs its
    zero-delay timers. *)
Inductive reachable : World -> Prop :=
| reach_start (d : Driver) :
    reachable {| sockets := ClientsController.new; shared := d; timeouts := [] |}
| reach_addSocket w s : reachable w -> reachable (addSocket s w)
| reach_message w i data : reachable w -> reachable (on_message i data w)
| reach_event w e : reachable w -> reachable (forwardEvent e w)
| reach_close w i : reachable w -> reachable (close_notification w i)
| reach_tick w : reachable w -> reachable (heartbeat_tick w)
| reach_timeouts w : reachable w -> reachable (run_timeouts w).

(** The frame that carries a published event. *)
Definition event_frame (e : JSONValue) : Effect := SocketSend (EventMessage e) false.

(** Events are published one after the other. *)
Definition publish (events : list JSONValue) (w : World) : World :=
  foldl (fun w e => forwardEvent e w) w events.

End Runtime.

(** ** The controller command surface (controller/incoming_message.ts) *)

Module ControllerCommand.
(** The members of [enum ControllerCommand] that the message interfaces
    name. *)
Inductive t : Type :=
| beginInclusion | stopInclusion | beginExclusion | stopExclusion
| removeFailedNode | replaceFailedNode | healNode
| beginHealingNetwork | stopHealingNetwork | isFailedNode
| getAssociationGroups | getAssociations | isAssociationAllowed
| addAssociations | removeAssociations
| removeNodeFromAllAssociations | removeNodeFromAllAssocations
| getNodeNeighbors | grantSecurityClasses | validateDSKAndEnterPIN
| provisionSmartStartNode | unprovisionSmartStartNode
| getProvisioningEntry | getProvisioningEntries | supportsFeature
| backupNVMRaw | restoreNVM | setRFRegion | getRFRegion
| setPowerlevel | getPowerlevel | getState | getKnownLifelineRoutes
| isAnyOTAFirmwareUpdateInProgress | getAnyFirmwareUpdateProgress
| getAvailableFirmwareUpdates | beginOTAFirmwareUpdate | firmwareUpdateOTA.

#[global] Instance eq_dec : EqDecision t.
Proof. solve_decision. Defined.
End ControllerCommand.

(** The interfaces that make up [IncomingMessageController]. *)
Inductive IncomingCommandController : Type :=
| IncomingCommandControllerBeginInclusion
| IncomingCommandControllerBeginInclusionLegacy
| IncomingCommandControllerStopInclusion
| IncomingCommandControllerBeginExclusion
| IncomingCommandControllerStopExclusion
| IncomingCommandControllerRemoveFailedNode
| IncomingCommandControllerReplaceFailedNode
| IncomingCommandControllerReplaceFailedNodeLegacy
| IncomingCommandControllerHealNode
| IncomingCommandControllerBeginHealingNetwork
| IncomingCommandControllerStopHealingNetwork
| IncomingCommandControllerIsFailedNode
| IncomingCommandControllerGetAssociationGroups
| IncomingCommandControllerGetAssociations
| IncomingCommandControllerIsAssociationAllowed
| IncomingCommandControllerAddAssociations
| IncomingCommandControllerRemoveAssociations
| IncomingCommandControllerRemoveNodeFromAllAssociations
| IncomingCommandControllerGetNodeNeighbors
| IncomingCommandControllerGrantSecurityClasses
| IncomingCommandControllerValidateDSKAndEnterPIN
| IncomingCommandControllerProvisionSmartStartNode
| IncomingCommandControllerUnprovisionSmartStartNode
| IncomingCommandControllerGetProvisioningEntry
| IncomingCommandControllerGetProvisioningEntries
| IncomingCommandControllerSupportsFeature
| IncomingCommandControllerBackupNVMRaw
| IncomingCommandControllerRestoreNVM
| IncomingCommandControllerSetRFRegion
| IncomingCommandControllerGetRFRegion
| IncomingCommandControllerSetPowerlevel
| IncomingCommandControllerGetPowerlevel
| IncomingCommandControllerGetState
| IncomingCommandControllerGetKnownLifelineRoutes
| IncomingCommandControllerIsAnyOTAFirmwareUpdateInProgress
| IncomingCommandControllerGetAvailableFirmwareUpdates
| IncomingCommandControllerBeginOTAFirmwareUpdate
| IncomingCommandControllerFirmwareUpdateOTA.

(** The type of the [command] property of each interface: the members of
    its union, in the order they are written. *)
Definition command_type (i : IncomingCommandController) : list ControllerCommand.t :=
  match i with
  | IncomingCommandControllerBeginInclusion => [ControllerCommand.beginInclusion]
  | IncomingCommandControllerBeginInclusionLegacy => [ControllerCommand.beginInclusion]
  | IncomingCommandControllerStopInclusion => [ControllerCommand.stopInclusion]
  | IncomingCommandControllerBeginExclusion => [ControllerCommand.beginExclusion]
  | IncomingCommandControllerStopExclusion => [ControllerCommand.stopExclusion]
  | IncomingCommandControllerRemoveFailedNode => [ControllerCommand.removeFailedNode]
  | IncomingCommandControllerReplaceFailedNode => [ControllerCommand.replaceFailedNode]
  | IncomingCommandControllerReplaceFailedNodeLegacy => [ControllerCommand.replaceFailedNode]
  | IncomingCommandControllerHealNode => [ControllerCommand.healNode]
  | IncomingCommandControllerBeginHealingNetwork => [ControllerCommand.beginHealingNetwork]
  | IncomingCommandControllerStopHealingNetwork => [ControllerCommand.stopHealingNetwork]
  | IncomingCommandControllerIsFailedNode => [ControllerCommand.isFailedNode]
  | IncomingCommandControllerGetAssociationGroups => [ControllerCommand.getAssociationGroups]
  | IncomingCommandControllerGetAssociations => [ControllerCommand.getAssociations]
  | IncomingCommandControllerIsAssociationAllowed => [ControllerCommand.isAssociationAllowed]
  | IncomingCommandControllerAddAssociations => [ControllerCommand.addAssociations]
  | IncomingCommandControllerRemoveAssociations => [ControllerCommand.removeAssociations]
  | IncomingCommandControllerRemoveNodeFromAllAssociations =>
      [ControllerCommand.removeNodeFromAllAssociations;
       ControllerCommand.removeNodeFromAllAssocations]
  | IncomingCommandControllerGetNodeNeighbors => [ControllerCommand.getNodeNeighbors]
  | IncomingCommandControllerGrantSecurityClasses => [ControllerCommand.grantSecurityClasses]
  | IncomingCommandControllerValidateDSKAndEnterPIN => [ControllerCommand.validateDSKAndEnterPIN]
  | IncomingCommandControllerProvisionSmartStartNode => [ControllerCommand.provisionSmartStartNode]
  | IncomingCommandControllerUnprovisionSmartStartNode =>
      [ControllerCommand.unprovisionSmartStartNode]
  | IncomingCommandControllerGetProvisioningEntry => [ControllerCommand.getProvisioningEntry]
  | IncomingCommandControllerGetProvisioningEntries => [ControllerCommand.getProvisioningEntries]
  | IncomingCommandControllerSupportsFeature => [ControllerCommand.supportsFeature]
  | IncomingCommandControllerBackupNVMRaw => [ControllerCommand.backupNVMRaw]
  | IncomingCommandControllerRestoreNVM => [ControllerCommand.restoreNVM]
  | IncomingCommandControllerSetRFRegion => [ControllerCommand.setRFRegion]
  | IncomingCommandControllerGetRFRegion => [ControllerCommand.getRFRegion]
  | IncomingCommandControllerSetPowerlevel => [ControllerCommand.setPowerlevel]
  | IncomingCommandControllerGetPowerlevel => [ControllerCommand.getPowerlevel]
  | IncomingCommandControllerGetState => [ControllerCommand.getState]
  | IncomingCommandControllerGetKnownLifelineRoutes => [ControllerCommand.getKnownLifelineRoutes]
  | IncomingCommandControllerIsAnyOTAFirmwareUpdateInProgress =>
      [ControllerCommand.isAnyOTAFirmwareUpdateInProgress;
       ControllerCommand.getAnyFirmwareUpdateProgress]
  | IncomingCommandControllerGetAvailableFirmwareUpdates =>
      [ControllerCommand.getAvailableFirmwareUpdates]
  | IncomingCommandControllerBeginOTAFirmwareUpdate => [ControllerCommand.beginOTAFirmwareUpdate]
  | IncomingCommandControllerFirmwareUpdateOTA => [ControllerCommand.firmwareUpdateOTA]
  end.

(** The properties an interface declares besides [command]; [true] marks
    an optional one. *)
Definition properties (i : IncomingCommandController) : list (string * bool) :=
  match i with
  | IncomingCommandControllerBeginInclusion => [("options", false)]
  | IncomingCommandControllerBeginInclusionLegacy => [("includeNonSecure", true)]
  | IncomingCommandControllerBeginExclusion => [("unprovision", true); ("strategy", true)]
  | IncomingCommandControllerRemoveFailedNode
  | IncomingCommandControllerHealNode
  | IncomingCommandControllerIsFailedNode
  | IncomingCommandControllerRemoveNodeFromAllAssociations
  | IncomingCommandControllerGetNodeNeighbors => [("nodeId", false)]
  | IncomingCommandControllerReplaceFailedNode => [("nodeId", false); ("options", false)]
  | IncomingCommandControllerReplaceFailedNodeLegacy =>
      [("nodeId", false); ("includeNonSecure", true)]
  | IncomingCommandControllerGetAssociationGroups
  | IncomingCommandControllerGetAssociations => [("nodeId", false); ("endpoint", true)]
  | IncomingCommandControllerIsAssociationAllowed =>
      [("nodeId", false); ("group", false); ("association", false); ("endpoint", true)]
  | IncomingCommandControllerAddAssociations
  | IncomingCommandControllerRemoveAssociations =>
      [("nodeId", false); ("group", false); ("associations", false); ("endpoint", true)]
  | IncomingCommandControllerGrantSecurityClasses => [("inclusionGrant", false)]
  | IncomingCommandControllerValidateDSKAndEnterPIN => [("pin", false)]
  | IncomingCommandControllerProvisionSmartStartNode => [("entry", false)]
  | IncomingCommandControllerUnprovisionSmartStartNode => [("dskOrNodeId", false)]
  | IncomingCommandControllerGetProvisioningEntry => [("dsk", true); ("dskOrNodeId", true)]
  | IncomingCommandControllerSupportsFeature => [("feature", false)]
  | IncomingCommandControllerRestoreNVM => [("nvmData", false)]
  | IncomingCommandControllerSetRFRegion => [("region", false)]
  | IncomingCommandControllerSetPowerlevel => [("powerlevel", false); ("measured0dBm", false)]
  | IncomingCommandControllerGetAvailableFirmwareUpdates =>
      [("nodeId", false); ("apiKey", true); ("includePrereleases", true)]
  | IncomingCommandControllerBeginOTAFirmwareUpdate => [("nodeId", false); ("update", false)]
  | IncomingCommandControllerFirmwareUpdateOTA => [("nodeId", false); ("updates", false)]
  | IncomingCommandControllerStopInclusion
  | IncomingCommandControllerStopExclusion
  | IncomingCommandControllerBeginHealingNetwork
  | IncomingCommandControllerStopHealingNetwork
  | IncomingCommandControllerGetProvisioningEntries
  | IncomingCommandControllerBackupNVMRaw
  | IncomingCommandControllerGetRFRegion
  | IncomingCommandControllerGetPowerlevel
  | IncomingCommandControllerGetState
  | IncomingCommandControllerGetKnownLifelineRoutes
  | IncomingCommandControllerIsAnyOTAFirmwareUpdateInProgress => []
  end.

(** [type IncomingMessageController]: the union, in declaration order. *)
Definition IncomingMessageController : list IncomingCommandController :=
  [IncomingCommandControllerBeginInclusion;
   IncomingCommandControllerBeginInclusionLegacy;
   IncomingCommandControllerStopInclusion;
   IncomingCommandControllerBeginExclusion;
   IncomingCommandControllerStopExclusion;
   IncomingCommandControllerRemoveFailedNode;
   IncomingCommandControllerReplaceFailedNode;
   IncomingCommandControllerReplaceFailedNodeLegacy;
   IncomingCommandControllerHealNode;
   IncomingCommandControllerBeginHealingNetwork;
   IncomingCommandControllerStopHealingNetwork;
   IncomingCommandControllerIsFailedNode;
   IncomingCommandControllerGetAssociationGroups;
   IncomingCommandControllerGetAssociations;
   IncomingCommandControllerIsAssociationAllowed;
   IncomingCommandControllerAddAssociations;
   IncomingCommandControllerRemoveAssociations;
   IncomingCommandControllerRemoveNodeFromAllAssociations;
   IncomingCommandControllerGetNodeNeighbors;
   IncomingCommandControllerGrantSecurityClasses;
   IncomingCommandControllerValidateDSKAndEnterPIN;
   IncomingCommandControllerProvisionSmartStartNode;
   IncomingCommandControllerUnprovisionSmartStartNode;
   IncomingCommandControllerGetProvisioningEntry;
   IncomingCommandControllerGetProvisioningEntries;
   IncomingCommandControllerSupportsFeature;
   IncomingCommandControllerBackupNVMRaw;
   IncomingCommandControllerRestoreNVM;
   IncomingCommandControllerSetRFRegion;
   IncomingCommandControllerGetRFRegion;
   IncomingCommandControllerSetPowerlevel;
   IncomingCommandControllerGetPowerlevel;
   IncomingCommandControllerGetState;
   IncomingCommandControllerGetKnownLifelineRoutes;
   IncomingCommandControllerIsAnyOTAFirmwareUpdateInProgress;
   IncomingCommandControllerGetAvailableFirmwareUpdates;
   IncomingCommandControllerBeginOTAFirmwareUpdate;
   IncomingCommandControllerFirmwareUpdateOTA].

(** The members of the union whose [command] type admits [cmd]. *)
Definition interfaces_accepting (cmd : ControllerCommand.t) : list IncomingCommandController :=
  List.filter (fun i => bool_decide (cmd ∈ command_type i)) IncomingMessageController.

(** [cmd] is a valid [command] of some [IncomingMessageController]. *)
Definition accepted (cmd : ControllerCommand.t) : bool :=
  negb (Nat.eqb (length (interfaces_accepting cmd)) 0).

(** Two spellings [a] and [b] of one command: distinct members of the
    enum, both valid commands, and both admitted by [i] alone, whose
    [command] type is exactly their union. *)
Definition coexist (a b : ControllerCommand.t) (i : IncomingCommandController) : Prop :=
  a <> b /\
  accepted a = true /\
  accepted b = true /\
  interfaces_accepting a = [i] /\
  interfaces_accepting b = [i] /\
  command_type i = [a; b].

(** * A concrete gateway

    The gateway of the end-to-end scenarios of the design document: schema
    versions 1 to 10, the command spellings of its section 6, and a
    scripted codec and controller. *)

Module Scenario.

#[export] Instance commands : ServerCommand.t :=
  {| ServerCommand.initialize := "initialize";
     ServerCommand.setApiSchema := "setApiSchema";
     ServerCommand.startListening := "startListening";
     ServerCommand.updateLogConfig := "updateLogConfig";
     ServerCommand.getLogConfig := "getLogConfig" |}.

#[export] Instance instances : Instance.t :=
  {| Instance.controller := "controller";
     Instance.driver := "driver";
     Instance.node := "node";
     Instance.multicast_group := "multicast_group";
     Instance.broadcast_node := "broadcast_node";
     Instance.endpoint := "endpoint";
     Instance.utils := "utils" |}.

#[export] Instance constants : Constants :=
  {| minSchemaVersion := 1;
     maxSchemaVersion := 10;
     version := "1.23.1";
     libVersion := "10.3.0" |}.

Definition message (id cmd : string) (v : Z) : IncomingMessage :=
  {| messageId := id;
     command := cmd;
     msg_schemaVersion := v;
     msg_additionalUserAgentComponents := None;
     config := JObj [("level", JStr "debug")];
     fields := JNull |}.

(** JSON text of a frame. *)
Definition dq : string := String (Ascii.ascii_of_nat 34) EmptyString.
Definition text (s : string) : string := dq +:+ s +:+ dq.
Definition frame (id cmd rest : string) : string :=
  "{" +:+ text "messageId" +:+ ":" +:+ text id +:+ ","
      +:+ text "command" +:+ ":" +:+ text cmd +:+ rest +:+ "}".
Definition schema (v : string) : string := "," +:+ text "schemaVersion" +:+ ":" +:+ v.

(** The frames the scripted codec decodes; any other text fails to
    parse. *)
Definition script : list (string * IncomingMessage) :=
  [(frame "1" "initialize" (schema "5"), message "1" "initialize" 5);
   (frame "2" "startListening" "", message "2" "startListening" 0);
   (frame "3" "initialize" (schema "999"), message "3" "initialize" 999);
   (frame "4" "setApiSchema" (schema "7"), message "4" "setApiSchema" 7);
   (frame "5" "updateLogConfig" "", message "5" "updateLogConfig" 0);
   (frame "6" "bogus.doThing" "", message "6" "bogus.doThing" 0);
   (frame "7" "toString" "", message "7" "toString" 0)].

#[export] Instance collaborators : Collaborators :=
  {| Driver := JSONValue;
     JSON_parse := fun data => assoc data script;
     dumpState := fun d v => Normal (JObj [("schemaVersion", JNum v); ("logConfig", d)]);
     dumpLogConfig := fun d _ => Normal d;
     Driver_updateLogConfig := fun _ cfg => (Normal tt, cfg);
     Driver_homeId := fun _ => Some 3735928559;
     handle := fun _ msg d => (Normal (Json (fields msg)), d) |}.

Definition controller0 : Driver := JObj [("level", JStr "info")].

(** A session as [addSocket] registers it, before its greeting. *)
Definition fresh : Client := new_Client {| readyState := OPEN |}.

Definition start : World :=
  {| sockets := ClientsController.new; shared := controller0; timeouts := [] |}.

(** One client has connected. *)
Definition one_client : World := addSocket {| readyState := OPEN |} start.

End Scenario.
Import Scenario.

(** A session that receives logs and whose transport has gone away without
    a close notification, next to a live session; the logging forwarder is
    running. *)
Definition lost_listener : Client :=
  {| receiveEvents := false;
     _outstandingPing := false;
     schemaVersion := 1;
     receiveLogs := true;
     additionalUserAgentComponents := None;
     socket := {| readyState := CLOSED |};
     journal := [] |}.

Definition logging_world : World :=
  {| sockets :=
       {| ClientsController.clients := [lost_listener; fresh];
          ClientsController.pingInterval := true;
          ClientsController.eventForwarder := Some {| subscribed := true |};
          ClientsController.cleanupScheduled := false;
          ClientsController.loggingEventForwarder :=
            Some {| started := true; contextFilter := None |} |};
     shared := controller0;
     timeouts := [] |}.

(** * More of the code *)

(** ** Liveness probes *)

Definition is_ping (e : Effect) : bool :=
  match e with SocketPing => true | _ => false end.

Definition is_close (e : Effect) : bool :=
  match e with SocketClose => true | _ => false end.

(** How often the session has pinged, and how often it has asked its
    socket to close. *)
Definition pings (c : Client) : nat := length (List.filter is_ping (journal c)).
Definition closes (c : Client) : nat := length (List.filter is_close (journal c)).

(** A probe that the peer answers: [checkAlive()], then the [pong]
    listener. *)
Definition acknowledged_probe (c : Client) : Client := on_pong (checkAlive c).

(** ** The node command surface (controller/incoming_message.ts, second
    part) *)

Module NodeCommand.
(** The members of [enum NodeCommand] that the message interfaces name. *)
Inductive t : Type :=
| setValue | refreshInfo | getDefinedValueIDs | getValueMetadata
| beginFirmwareUpdate | updateFirmware | abortFirmwareUpdate
| getFirmwareUpdateCapabilities | getFirmwareUpdateCapabilitiesCached
| pollValue | setRawConfigParameterValue | refreshValues | refreshCCValues
| ping | hasSecurityClass | getHighestSecurityClass | testPowerlevel
| checkLifelineHealth | checkRouteHealth | getValue | getEndpointCount
| interviewCC | getState | setName | setLocation | setKeepAwake
| isFirmwareUpdateInProgress | getFirmwareUpdateProgress
| waitForWakeup | interview.

#[global] Instance eq_dec : EqDecision t.
Proof. solve_decision. Defined.

(** Every member, in declaration order. *)
Definition all : list t :=
  [setValue; refreshInfo; getDefinedValueIDs; getValueMetadata;
   beginFirmwareUpdate; updateFirmware; abortFirmwareUpdate;
   getFirmwareUpdateCapabilities; getFirmwareUpdateCapabilitiesCached;
   pollValue; setRawConfigParameterValue; refreshValues; refreshCCValues;
   ping; hasSecurityClass; getHighestSecurityClass; testPowerlevel;
   checkLifelineHealth; checkRouteHealth; getValue; getEndpointCount;
   interviewCC; getState; setName; setLocation; setKeepAwake;
   isFirmwareUpdateInProgress; getFirmwareUpdateProgress;
   waitForWakeup; interview].
End NodeCommand.

(** The interfaces that make up [IncomingMessageNode]. *)
Inductive IncomingCommandNode : Type :=
| IncomingCommandNodeSetValue
| IncomingCommandNodeRefreshInfo
| IncomingCommandNodeGetDefinedValueIDs
| IncomingCommandNodeGetValueMetadata
| IncomingCommandNodeBeginFirmwareUpdate
| IncomingCommandNodeUpdateFirmware
| IncomingCommandNodeAbortFirmwareUpdate
| IncomingCommandGetFirmwareUpdateCapabilities
| IncomingCommandGetFirmwareUpdateCapabilitiesCached
| IncomingCommandNodePollValue
| IncomingCommandNodeSetRawConfigParameterValue
| IncomingCommandNodeRefreshValues
| IncomingCommandNodeRefreshCCValues
| IncomingCommandNodePing
| IncomingCommandHasSecurityClass
| IncomingCommandGetHighestSecurityClass
| IncomingCommandTestPowerlevel
| IncomingCommandCheckLifelineHealth
| IncomingCommandCheckRouteHealth
| IncomingCommandGetValue
| IncomingCommandGetEndpointCount
| IncomingCommandInterviewCC
| IncomingCommandGetState
| IncomingCommandSetName
| IncomingCommandSetLocation
| IncomingCommandSetKeepAwake
| IncomingCommandIsFirmwareUpdateInProgress
| IncomingCommandWaitForWakeup
| IncomingCommandInterview.

(** The type of the [command] property of each node interface. *)
Definition node_command_type (i : IncomingCommandNode) : list NodeCommand.t :=
  match i with
  | IncomingCommandNodeSetValue => [NodeCommand.setValue]
  | IncomingCommandNodeRefreshInfo => [NodeCommand.refreshInfo]
  | IncomingCommandNodeGetDefinedValueIDs => [NodeCommand.getDefinedValueIDs]
  | IncomingCommandNodeGetValueMetadata => [NodeCommand.getValueMetadata]
  | IncomingCommandNodeBeginFirmwareUpdate => [NodeCommand.beginFirmwareUpdate]
  | IncomingCommandNodeUpdateFirmware => [NodeCommand.updateFirmware]
  | IncomingCommandNodeAbortFirmwareUpdate => [NodeCommand.abortFirmwareUpdate]
  | IncomingCommandGetFirmwareUpdateCapabilities =>
      [NodeCommand.getFirmwareUpdateCapabilities]
  | IncomingCommandGetFirmwareUpdateCapabilitiesCached =>
      [NodeCommand.getFirmwareUpdateCapabilitiesCached]
  | IncomingCommandNodePollValue => [NodeCommand.pollValue]
  | IncomingCommandNodeSetRawConfigParameterValue =>
      [NodeCommand.setRawConfigParameterValue]
  | IncomingCommandNodeRefreshValues => [NodeCommand.refreshValues]
  | IncomingCommandNodeRefreshCCValues => [NodeCommand.refreshCCValues]
  | IncomingCommandNodePing => [NodeCommand.ping]
  | IncomingCommandHasSecurityClass => [NodeCommand.hasSecurityClass]
  | IncomingCommandGetHighestSecurityClass => [NodeCommand.getHighestSecurityClass]
  | IncomingCommandTestPowerlevel => [NodeCommand.testPowerlevel]
  | IncomingCommandCheckLifelineHealth => [NodeCommand.checkLifelineHealth]
  | IncomingCommandCheckRouteHealth => [NodeCommand.checkRouteHealth]
  | IncomingCommandGetValue => [NodeCommand.getValue]
  | IncomingCommandGetEndpointCount => [NodeCommand.getEndpointCount]
  | IncomingCommandInterviewCC => [NodeCommand.interviewCC]
  | IncomingCommandGetState => [NodeCommand.getState]
  | IncomingCommandSetName => [NodeCommand.setName]
  | IncomingCommandSetLocation => [NodeCommand.setLocation]
  | IncomingCommandSetKeepAwake => [NodeCommand.setKeepAwake]
  | IncomingCommandIsFirmwareUpdateInProgress =>
      [NodeCommand.isFirmwareUpdateInProgress; NodeCommand.getFirmwareUpdateProgress]
  | IncomingCommandWaitForWakeup => [NodeCommand.waitForWakeup]
  | IncomingCommandInterview => [NodeCommand.interview]
  end.

(** [interface IncomingCommandNodeBase]: what every node interface
    inherits. *)
Definition IncomingCommandNodeBase : list (string * bool) := [("nodeId", false)].

(** The properties a node interface declares itself; [true] marks an
    optional one. *)
Definition node_own_properties (i : IncomingCommandNode) : list (string * bool) :=
  match i with
  | IncomingCommandNodeSetValue =>
      [("valueId", false); ("value", false); ("options", true)]
  | IncomingCommandNodeRefreshInfo => [("options", true)]
  | IncomingCommandNodeGetValueMetadata
  | IncomingCommandNodePollValue
  | IncomingCommandGetValue => [("valueId", false)]
  | IncomingCommandNodeBeginFirmwareUpdate =>
      [("firmwareFilename", false); ("firmwareFile", false);
       ("firmwareFileFormat", true); ("target", true)]
  | IncomingCommandNodeUpdateFirmware => [("updates", false)]
  | IncomingCommandNodeSetRawConfigParameterValue =>
      [("parameter", false); ("value", false); ("valueSize", false)]
  | IncomingCommandNodeRefreshCCValues
  | IncomingCommandInterviewCC => [("commandClass", false)]
  | IncomingCommandHasSecurityClass => [("securityClass", false)]
  | IncomingCommandTestPowerlevel =>
      [("testNodeId", false); ("powerlevel", false); ("testFrameCount", false)]
  | IncomingCommandCheckLifelineHealth => [("rounds", true)]
  | IncomingCommandCheckRouteHealth => [("targetNodeId", false); ("rounds", true)]
  | IncomingCommandSetName => [("name", false); ("updateCC", true)]
  | IncomingCommandSetLocation => [("location", false); ("updateCC", true)]
  | IncomingCommandSetKeepAwake => [("keepAwake", false)]
  | IncomingCommandNodeGetDefinedValueIDs
  | IncomingCommandNodeAbortFirmwareUpdate
  | IncomingCommandGetFirmwareUpdateCapabilities
  | IncomingCommandGetFirmwareUpdateCapabilitiesCached
  | IncomingCommandNodeRefreshValues
  | IncomingCommandNodePing
  | IncomingCommandGetHighestSecurityClass
  | IncomingCommandGetEndpointCount
  | IncomingCommandGetState
  | IncomingCommandIsFirmwareUpdateInProgress
  | IncomingCommandWaitForWakeup
  | IncomingCommandInterview => []
  end.

Definition node_properties (i : IncomingCommandNode) : list (string * bool) :=
  IncomingCommandNodeBase ++ node_own_properties i.

(** [type IncomingMessageNode]: the union, in declaration order. *)
Definition IncomingMessageNode : list IncomingCommandNode :=
  [IncomingCommandNodeSetValue;
   IncomingCommandNodeRefreshInfo;
   IncomingCommandNodeGetDefinedValueIDs;
   IncomingCommandNodeGetValueMetadata;
   IncomingCommandNodeBeginFirmwareUpdate;
   IncomingCommandNodeUpdateFirmware;
   IncomingCommandNodeAbortFirmwareUpdate;
   IncomingCommandGetFirmwareUpdateCapabilities;
   IncomingCommandGetFirmwareUpdateCapabilitiesCached;
   IncomingCommandNodePollValue;
   IncomingCommandNodeSetRawConfigParameterValue;
   IncomingCommandNodeRefreshValues;
   IncomingCommandNodeRefreshCCValues;
   IncomingCommandNodePing;
   IncomingCommandHasSecurityClass;
   IncomingCommandGetHighestSecurityClass;
   IncomingCommandTestPowerlevel;
   IncomingCommandCheckLifelineHealth;
   IncomingCommandCheckRouteHealth;
   IncomingCommandGetValue;
   IncomingCommandGetEndpointCount;
   IncomingCommandInterviewCC;
   IncomingCommandGetState;
   IncomingCommandSetName;
   IncomingCommandSetLocation;
   IncomingCommandSetKeepAwake;
   IncomingCommandIsFirmwareUpdateInProgress;
   IncomingCommandWaitForWakeup;
   IncomingCommandInterview].

(** The members of the node union whose [command] type admits [cmd]. *)
Definition node_interfaces_accepting (cmd : NodeCommand.t) : list IncomingCommandNode :=
  List.filter (fun i => bool_decide (cmd ∈ node_command_type i)) IncomingMessageNode.

(** Every member of [ControllerCommand], in declaration order. *)
Definition ControllerCommand_all : list ControllerCommand.t :=
  [ControllerCommand.beginInclusion; ControllerCommand.stopInclusion;
   ControllerCommand.beginExclusion; ControllerCommand.stopExclusion;
   ControllerCommand.removeFailedNode; ControllerCommand.replaceFailedNode;
   ControllerCommand.healNode; ControllerCommand.beginHealingNetwork;
   ControllerCommand.stopHealingNetwork; ControllerCommand.isFailedNode;
   ControllerCommand.getAssociationGroups; ControllerCommand.getAssociations;
   ControllerCommand.isAssociationAllowed; ControllerCommand.addAssociations;
   ControllerCommand.removeAssociations;
   ControllerCommand.removeNodeFromAllAssociations;
   ControllerCommand.removeNodeFromAllAssocations;
   ControllerCommand.getNodeNeighbors; ControllerCommand.grantSecurityClasses;
   ControllerCommand.validateDSKAndEnterPIN;
   ControllerCommand.provisionSmartStartNode;
   ControllerCommand.unprovisionSmartStartNode;
   ControllerCommand.getProvisioningEntry; ControllerCommand.getProvisioningEntries;
   ControllerCommand.supportsFeature; ControllerCommand.backupNVMRaw;
   ControllerCommand.restoreNVM; ControllerCommand.setRFRegion;
   ControllerCommand.getRFRegion; ControllerCommand.setPowerlevel;
   ControllerCommand.getPowerlevel; ControllerCommand.getState;
   ControllerCommand.getKnownLifelineRoutes;
   ControllerCommand.isAnyOTAFirmwareUpdateInProgress;
   ControllerCommand.getAnyFirmwareUpdateProgress;
   ControllerCommand.getAvailableFirmwareUpdates;
   ControllerCommand.beginOTAFirmwareUpdate; ControllerCommand.firmwareUpdateOTA].

(** ** ZwavejsServer *)

(** What [start] uses beyond the session's collaborators:
    [applicationName] of ./const, the [ready] flag and [updateUserAgent]
    of the driver, and whether the HTTP server gets to listen on an
    endpoint. *)
Class Lifecycle `{Collaborators} : Type := {
  applicationName : string;
  Driver_ready : Driver -> bool;
  Driver_updateUserAgent : Driver -> string -> string -> Driver;
  listens : string -> Z -> bool
}.

Module ZwavejsServer.

(** [interface ZwavejsServerOptions], without the logger. *)
Record ZwavejsServerOptions : Type := {
  port : option Z;
  host : option string;
  enableDNSServiceDiscovery : option bool
}.

(** The HTTP server and the endpoint it listens on, once it does. *)
Record HttpServer : Type := { listening : option (string * Z) }.

(** The advertised service: its name is the home id, its port the
    listening port. *)
Record CiaoService : Type := { service_homeId : Z; service_port : Z }.

Record t : Type := {
  options : ZwavejsServerOptions;
  destroyServerOnHardReset : bool;
  server : option HttpServer;
  wsServer : bool;  (* whether the WebSocket server exists *)
  sockets : option ClientsController.t;
  responder : bool;  (* whether the discovery responder exists *)
  service : option CiaoService;
  emitted : list string  (* the events [start] has emitted, oldest first *)
}.

Definition defaultPort : Z := 3000.
Definition defaultHost : string := "0.0.0.0".

(** [new ZwavejsServer(driver, options = {}, destroyServerOnHardReset = false)] *)
Definition new (o : ZwavejsServerOptions) (destroyOnReset : bool) : t :=
  {| options := o;
     destroyServerOnHardReset := destroyOnReset;
     server := None;
     wsServer := false;
     sockets := None;
     responder := false;
     service := None;
     emitted := [] |}.

Definition set_server (v : option HttpServer) (s : t) : t :=
  {| options := options s;
     destroyServerOnHardReset := destroyServerOnHardReset s;
     server := v;
     wsServer := wsServer s;
     sockets := sockets s;
     responder := responder s;
     service := service s;
     emitted := emitted s |}.

Definition set_wsServer (v : bool) (s : t) : t :=
  {| options := options s;
     destroyServerOnHardReset := destroyServerOnHardReset s;
     server := server s;
     wsServer := v;
     sockets := sockets s;
     responder := responder s;
     service := service s;
     emitted := emitted s |}.

Definition set_sockets (v : option ClientsController.t) (s : t) : t :=
  {| options := options s;
     destroyServerOnHardReset := destroyServerOnHardReset s;
     server := server s;
     wsServer := wsServer s;
     sockets := v;
     responder := responder s;
     service := service s;
     emitted := emitted s |}.

Definition set_responder (v : bool) (s : t) : t :=
  {| options := options s;
     destroyServerOnHardReset := destroyServerOnHardReset s;
     server := server s;
     wsServer := wsServer s;
     sockets := sockets s;
     responder := v;
     service := service s;
     emitted := emitted s |}.

Definition set_service (v : option CiaoService) (s : t) : t :=
  {| options := options s;
     destroyServerOnHardReset := destroyServerOnHardReset s;
     server := server s;
     wsServer := wsServer s;
     sockets := sockets s;
     responder := responder s;
     service := v;
     emitted := emitted s |}.

(** [this.emit(event)] *)
Definition emit (event : string) (s : t) : t :=
  {| options := options s;
     destroyServerOnHardReset := destroyServerOnHardReset s;
     server := server s;
     wsServer := wsServer s;
     sockets := sockets s;
     responder := responder s;
     service := service s;
     emitted := emitted s ++ [event] |}.

(** [this.options.port || this.defaultPort]: a missing port and port 0
    are both falsy. *)
Definition effective_port (o : ZwavejsServerOptions) : Z :=
  match port o with
  | Some p => if p =? 0 then defaultPort else p
  | None => defaultPort
  end.

(** [this.options.host || this.defaultHost]: a missing host and the empty
    string are both falsy. *)
Definition effective_host (o : ZwavejsServerOptions) : string :=
  match host o with
  | Some h => if String.eqb h "" then defaultHost else h
  | None => defaultHost
  end.

(** The ports [server.listen] takes; any other makes it throw a
    [RangeError]. *)
Definition valid_port (p : Z) : bool := (0 <=? p) && (p <=? 65535).

Section Start.
Context `{Constants} `{Collaborators} `{!Lifecycle}.

(** [start()].  When the server cannot listen, the awaited
    [once(server, "listening")] rejects; [onError], which reports the
    failure as an [error] event, is a separate listener and not part of
    this function. *)
Definition start (s : t) (d : Driver) : Completion unit * (t * Driver) :=
  if negb (Driver_ready d)
  then (Throw (OtherError "Cannot start server when driver not ready"), (s, d))
  else
    let d1 := Driver_updateUserAgent d applicationName version in
    let s1 := set_sockets (Some ClientsController.new)
                (set_wsServer true (set_server (Some {| listening := None |}) s)) in
    let p := effective_port (options s) in
    let h := effective_host (options s) in
    if negb (valid_port p) then (Throw (OtherError "RangeError"), (s1, d1))
    else if negb (listens h p) then (Throw (OtherError "listen"), (s1, d1))
    else
      let s2 := emit "listening" (set_server (Some {| listening := Some (h, p) |}) s1) in
      match enableDNSServiceDiscovery (options s) with
      | Some true =>
          let s3 := set_responder true s2 in
          match Driver_homeId d1 with
          | None => (Throw (OtherError "TypeError"), (s3, d1))
          | Some homeId =>
              (Normal tt,
               (set_service (Some {| service_homeId := homeId; service_port := p |}) s3, d1))
          end
      | Some false | None => (Normal tt, (s2, d1))
      end.

End Start.

(** The steps of a teardown. *)
Inductive Teardown : Type :=
| DisconnectSessions (closed : list Client)
| CloseWsServer
| CloseServer
| EndService
| ShutdownResponder.

(** [destroy()]: the server afterwards and the steps taken, in order.
    Each awaited close completes. *)
Definition destroy (s : t) : t * list Teardown :=
  let '(s1, t1) :=
    match sockets s with
    | Some cc =>
        (set_sockets None s, [DisconnectSessions (ClientsController.disconnect cc).2])
    | None => (s, [])
    end in
  let '(s2, t2) :=
    if wsServer s1 then (set_wsServer false s1, [CloseWsServer]) else (s1, []) in
  let '(s3, t3) :=
    match server s2 with
    | Some _ => (set_server None s2, [CloseServer])
    | None => (s2, [])
    end in
  let '(s4, t4) :=
    match service s3 with
    | Some _ => (set_service None s3, [EndService])
    | None => (s3, [])
    end in
  let '(s5, t5) :=
    if responder s4 then (set_responder false s4, [ShutdownResponder]) else (s4, []) in
  (s5, t1 ++ t2 ++ t3 ++ t4 ++ t5).

(** The teardown steps in the order [destroy] can take them. *)
Definition teardown_rank (step : Teardown) : nat :=
  match step with
  | DisconnectSessions _ => 0
  | CloseWsServer => 1
  | CloseServer => 2
  | EndService => 3
  | ShutdownResponder => 4
  end.

(** No resource is held. *)
Definition released (s : t) : Prop :=
  server s = None /\ wsServer s = false /\ sockets s = None /\
  responder s = false /\ service s = None.

End ZwavejsServer.

(** The lifecycle side of the concrete gateway: a driver is ready unless it
    is [null], and port 80 is taken. *)
#[export] Instance scenario_lifecycle : Lifecycle :=
  {| applicationName := "zwave-js-server";
     Driver_ready := fun d => match d with JNull => false | _ => true end;
     Driver_updateUserAgent := fun d _ _ => d;
     listens := fun _ p => negb (p =? 80) |}.

(** ** Vocabulary for the properties below *)

(** The reply the [catch] block of [receiveMessage] sends for a failure. *)
Definition error_reply (id : string) (e : Thrown) : OutgoingMessage :=
  match e with
  | BaseError errorCode args => ResultError id errorCode args
  | ZWaveError code message => ResultZWaveError id code message
  | OtherError _ => ResultError id ErrorCode.unknownError (JObj [])
  end.


(** The text of a string holds no dot. *)
Definition dotless (s : string) : Prop := ~ In dot (String.list_ascii_of_string s).

(** A second controller for the concrete gateway: it is not ready, so the
    state dump throws the driver's error, it refuses a new log
    configuration, and its handlers reject with a typed error. *)
Definition script_more : list (string * IncomingMessage) :=
  script ++ [(frame "8" "getLogConfig" "", message "8" "getLogConfig" 0);
             (frame "9" "node.ping" "", message "9" "node.ping" 0)].

Definition unready : Collaborators :=
  {| Driver := JSONValue;
     JSON_parse := fun data => assoc data script_more;
     dumpState := fun _ _ => Throw (ZWaveError 5 "The driver is not ready");
     dumpLogConfig := fun d _ => Normal d;
     Driver_updateLogConfig := fun d _ => (Throw (OtherError "frozen"), d);
     Driver_homeId := fun _ => None;
     handle := fun _ _ d =>
       (Throw (BaseError (ErrorCode.other "node_not_found")
                 (JObj [("nodeId", JNum 9)])), d) |}.

(** * The session on unvalidated frames

    [JSON.parse] returns whatever JSON value the frame holds, and the
    handler families are given the session and the controller.  This part
    is [Client.receiveMessage] once more, without the two assumptions made
    above: the parsed frame is any JSON value whose properties are read as
    JavaScript reads them, and a handler may change the session, the
    controller and the driver.  The handlers leave the message itself as
    it is. *)

Module Untyped.

(** A value read off a parsed frame: [undefined] or a JSON value. *)
Inductive Value : Type :=
| undefined
| json (j : JSONValue).

(** The member [key] of a parsed object; [JSON.parse] keeps the last of
    duplicate keys. *)
Fixpoint member (key : string) (members : list (string * JSONValue)) : Value :=
  match members with
  | [] => undefined
  | (k, v) :: rest =>
      match member key rest with
      | undefined => if String.eqb key k then json v else undefined
      | json found => json found
      end
  end.

Definition TypeError : Thrown := OtherError "TypeError".

(** [msg.key] for the keys the session reads ([command], [messageId],
    [schemaVersion], [additionalUserAgentComponents], [config]), none of
    which a prototype defines: reading a property of [null] throws, a
    number, boolean, string or array has none of them. *)
Definition get (msg : JSONValue) (key : string) : Completion Value :=
  match msg with
  | JNull => Throw TypeError
  | JObj members => Normal (member key members)
  | JBool _ | JNum _ | JStr _ | JArr _ => Normal undefined
  end.

(** What [await handler(msg)] yields. *)
Inductive Result : Type :=
| resolved (v : Value)
| handlerTable.

(** The result messages, addressed to whatever [msg.messageId] is. *)
Inductive OutgoingMessage : Type :=
| ResultSuccess (id : Value) (result : Result)
| ResultError (id : Value) (errorCode : ErrorCode.t) (args : JSONValue)
| ResultZWaveError (id : Value) (zwaveErrorCode : Z) (zwaveErrorMessage : string).

Definition reply_to (m : OutgoingMessage) : Value :=
  match m with
  | ResultSuccess id _ | ResultError id _ _ | ResultZWaveError id _ _ => id
  end.

Definition is_success (m : OutgoingMessage) : bool :=
  match m with ResultSuccess _ _ => true | _ => false end.

(** Modelled from the spec: [new SchemaIncompatibleError(this.schemaVersion)]
    of ./error, a typed error with the schema-incompatibility code whose
    extra field is the version it was given (spec section 7). *)
Definition SchemaIncompatibleError (v : Value) : Thrown :=
  BaseError ErrorCode.schemaIncompatible
    (JObj match v with json j => [("schemaId", j)] | undefined => [] end).

Inductive Effect : Type :=
| SocketSend (data : OutgoingMessage) (compress : bool)
| SocketPing
| SocketClose
| Assign (f : Field).

(** The session; [schemaVersion] and the client metadata hold whatever
    the frame carried. *)
Record Session : Type := {
  receiveEvents : bool;
  _outstandingPing : bool;
  schemaVersion : Value;
  receiveLogs : bool;
  additionalUserAgentComponents : Value;
  socket : WebSocket;
  journal : list Effect
}.

Definition sent (c : Session) : list (OutgoingMessage * bool) :=
  omap (fun e => match e with SocketSend m z => Some (m, z) | _ => None end)
       (journal c).

Definition pings (c : Session) : nat :=
  length (List.filter (fun e => match e with SocketPing => true | _ => false end)
            (journal c)).

Definition record (e : Effect) (c : Session) : Session :=
  {| receiveEvents := receiveEvents c;
     _outstandingPing := _outstandingPing c;
     schemaVersion := schemaVersion c;
     receiveLogs := receiveLogs c;
     additionalUserAgentComponents := additionalUserAgentComponents c;
     socket := socket c;
     journal := journal c ++ [e] |}.

Definition set_receiveEvents (b : bool) (c : Session) : Session :=
  record (Assign F_receiveEvents)
  {| receiveEvents := b;
     _outstandingPing := _outstandingPing c;
     schemaVersion := schemaVersion c;
     receiveLogs := receiveLogs c;
     additionalUserAgentComponents := additionalUserAgentComponents c;
     socket := socket c;
     journal := journal c |}.

Definition set_schemaVersion (v : Value) (c : Session) : Session :=
  record (Assign F_schemaVersion)
  {| receiveEvents := receiveEvents c;
     _outstandingPing := _outstandingPing c;
     schemaVersion := v;
     receiveLogs := receiveLogs c;
     additionalUserAgentComponents := additionalUserAgentComponents c;
     socket := socket c;
     journal := journal c |}.

Definition set_additionalUserAgentComponents (a : Value) (c : Session) : Session :=
  record (Assign F_additionalUserAgentComponents)
  {| receiveEvents := receiveEvents c;
     _outstandingPing := _outstandingPing c;
     schemaVersion := schemaVersion c;
     receiveLogs := receiveLogs c;
     additionalUserAgentComponents := a;
     socket := socket c;
     journal := journal c |}.

(** [this.socket.close()] *)
Definition socket_close (c : Session) : Session :=
  record SocketClose
  {| receiveEvents := receiveEvents c;
     _outstandingPing := _outstandingPing c;
     schemaVersion := schemaVersion c;
     receiveLogs := receiveLogs c;
     additionalUserAgentComponents := additionalUserAgentComponents c;
     socket := WebSocket_close (socket c);
     journal := journal c |}.

(** [sendData(data, compress)] *)
Definition sendData (data : OutgoingMessage) (compress : bool) (c : Session) : Session :=
  record (SocketSend data compress) c.

(** [sendResultError(messageId, errorCode, args)] *)
Definition sendResultError (id : Value) (errorCode : ErrorCode.t) (args : JSONValue)
    (c : Session) : Session :=
  sendData (ResultError id errorCode args) false c.

(** [sendResultZWaveError(messageId, zjsErrorCode, message)] *)
Definition sendResultZWaveError (id : Value) (code : Z) (message : string)
    (c : Session) : Session :=
  sendData (ResultZWaveError id code message) false c.

(** The reply that reports a failure. *)
Definition error_reply (id : Value) (e : Thrown) : OutgoingMessage :=
  match e with
  | BaseError errorCode args => ResultError id errorCode args
  | ZWaveError code message => ResultZWaveError id code message
  | OtherError _ => ResultError id ErrorCode.unknownError (JObj [])
  end.

(** The collaborators of the session, typed as loosely as the code uses
    them.  [Registry] is everything a handler reaches through
    [clientsController] besides this session.  [less_than] and
    [greater_than] are the runtime's [v < n] and [v > n] for a string,
    an array or an object [v], which go through its conversions and may
    throw. *)
Class Collaborators : Type := {
  Driver : Type;
  Registry : Type;
  JSON_parse : string -> option JSONValue;
  less_than : JSONValue -> Z -> Completion bool;
  greater_than : JSONValue -> Z -> Completion bool;
  dumpState : Driver -> Value -> Completion JSONValue;
  dumpLogConfig : Driver -> Value -> Completion JSONValue;
  Driver_updateLogConfig : Driver -> Value -> Completion unit * Driver;
  handle : HandlerFamily -> JSONValue -> Session * Registry * Driver ->
           Completion Result * (Session * Registry * Driver)
}.

Section Session.
Context `{ServerCommand.t} `{Instance.t} `{Constants} `{Collaborators}.

Definition Ctx : Type := Session * Registry * Driver.

Definition session (s : Ctx) : Session := s.1.1.
Definition registry (s : Ctx) : Registry := s.1.2.
Definition driver (s : Ctx) : Driver := s.2.

Definition M (A : Type) : Type := Ctx -> Completion A * Ctx.

Definition ret {A} (a : A) : M A := fun s => (Normal a, s).

Definition bind {A B} (m : M A) (k : A -> M B) : M B :=
  fun s =>
    match m s with
    | (Normal a, s') => k a s'
    | (Throw e, s') => (Throw e, s')
    end.

Definition throw {A} (e : Thrown) : M A := fun s => (Throw e, s).

(** [try { body } catch (err) { handler }]: what the handler throws
    leaves the block. *)
Definition try_catch (body : M unit) (handler : Thrown -> M unit) : M unit :=
  fun s =>
    match body s with
    | (Normal tt, s') => (Normal tt, s')
    | (Throw e, s') => handler e s'
    end.

Definition this : M Session := fun s => (Normal (session s), s).

Definition self (f : Session -> Session) : M unit :=
  fun s => (Normal tt, (f (session s), registry s, driver s)).

Definition lift {A} (r : Completion A) : M A := fun s => (r, s).

Definition ask {A} (f : Driver -> Completion A) : M A :=
  fun s => (f (driver s), s).

Definition call {A} (f : Driver -> Completion A * Driver) : M A :=
  fun s => let '(r, d) := f (driver s) in (r, (session s, registry s, d)).

#[local] Instance M_ret : MRet M := @ret.
#[local] Instance M_bind : MBind M := fun A B k m => bind m k.

(** [v === text] for a string constant. *)
Definition is_string (v : Value) (text : string) : bool :=
  match v with
  | json (JStr s) => String.eqb s text
  | _ => false
  end.

(** [v < n] for a number [n]: [undefined] converts to NaN and compares
    false, [null] to 0, a boolean to 0 or 1. *)
Definition less (v : Value) (n : Z) : Completion bool :=
  match v with
  | undefined => Normal false
  | json JNull => Normal (0 <? n)
  | json (JBool b) => Normal ((if b then 1 else 0) <? n)
  | json (JNum x) => Normal (x <? n)
  | json other => less_than other n
  end.

(** [v > n] for a number [n]. *)
Definition greater (v : Value) (n : Z) : Completion bool :=
  match v with
  | undefined => Normal false
  | json JNull => Normal (0 >? n)
  | json (JBool b) => Normal ((if b then 1 else 0) >? n)
  | json (JNum x) => Normal (x >? n)
  | json other => greater_than other n
  end.

(** [v < minSchemaVersion || v > maxSchemaVersion]; the right operand is
    evaluated only when the left one is false. *)
Definition out_of_range (v : Value) : Completion bool :=
  match less v minSchemaVersion with
  | Normal true => Normal true
  | Normal false => greater v maxSchemaVersion
  | Throw e => Throw e
  end.

(** [setSchemaVersion(schemaVersion)] *)
Definition setSchemaVersion (v : Value) : M unit :=
  self (set_schemaVersion v) ;;
  c ← this;
  bind (lift (out_of_range (schemaVersion c)))
    (fun out : bool =>
       if out then throw (SchemaIncompatibleError (schemaVersion c)) else ret tt).

(** Whether a parsed value is an object with a member [key] of its own. *)
Definition own (msg : JSONValue) (key : string) : bool :=
  match msg with
  | JObj members =>
      match member key members with
      | undefined => false
      | json _ => true
      end
  | _ => false
  end.

(** Converting a message object to a property key calls its [toString]:
    the inherited one answers ["[object Object]"], a member of that name
    cannot be called and the conversion throws. *)
Definition property_key (msg : JSONValue) : Completion string :=
  if own msg "toString" then Throw TypeError else Normal "[object Object]".

(** Calling a property inherited from [Object.prototype] with the
    message, which is an object here; no own property of the handler
    table is named by the key of a message. *)
Definition call_inherited (m : ObjectPrototypeMember) (msg : JSONValue)
    : Completion Result :=
  match m with
  | P_constructor => Normal (resolved (json msg))
  | P_toString | P_toLocaleString => Normal (resolved (json (JStr "[object Object]")))
  | P_valueOf => Normal handlerTable
  | P_isPrototypeOf => Normal (resolved (json (JBool false)))
  | P_hasOwnProperty | P_propertyIsEnumerable =>
      match property_key msg with
      | Normal _ => Normal (resolved (json (JBool false)))
      | Throw e => Throw e
      end
  | P_lookupGetter | P_lookupSetter =>
      match property_key msg with
      | Normal _ => Normal (resolved undefined)
      | Throw e => Throw e
      end
  | P_defineGetter | P_defineSetter | P_proto => Throw TypeError
  end.

(** [await this.instanceHandlers[instance](msg)] *)
Definition call_property (p : Property) (msg : JSONValue) : M Result :=
  match p with
  | OwnHandler h => handle h msg
  | Inherited m => lift (call_inherited m msg)
  | NoProperty => throw TypeError
  end.

(** [sendResultSuccess(messageId, result, compress)] *)
Definition sendResultSuccess (id : Value) (result : Result) (compress : bool)
    (c : Session) : Session :=
  sendData (ResultSuccess id result) compress c.

Definition object (members : list (string * JSONValue)) : Result :=
  resolved (json (JObj members)).

(** The [try] block of [receiveMessage]. *)
Definition dispatch (msg : JSONValue) : M unit :=
  command ← lift (get msg "command");
  if is_string command ServerCommand.initialize then
    v ← lift (get msg "schemaVersion");
    setSchemaVersion v ;;
    a ← lift (get msg "additionalUserAgentComponents");
    self (set_additionalUserAgentComponents a) ;;
    id ← lift (get msg "messageId");
    self (sendResultSuccess id (object []) false)
  else if is_string command ServerCommand.setApiSchema then
    v ← lift (get msg "schemaVersion");
    setSchemaVersion v ;;
    id ← lift (get msg "messageId");
    self (sendResultSuccess id (object []) false)
  else if is_string command ServerCommand.startListening then
    id ← lift (get msg "messageId");
    c ← this;
    state ← ask (fun d => dumpState d (schemaVersion c));
    self (sendResultSuccess id (object [("state", state)]) true) ;;
    self (set_receiveEvents true)
  else if is_string command ServerCommand.updateLogConfig then
    cfg ← lift (get msg "config");
    call (fun d => Driver_updateLogConfig d cfg) ;;
    id ← lift (get msg "messageId");
    self (sendResultSuccess id (object []) false)
  else if is_string command ServerCommand.getLogConfig then
    id ← lift (get msg "messageId");
    c ← this;
    cfg ← ask (fun d => dumpLogConfig d (schemaVersion c));
    self (sendResultSuccess id (object [("config", cfg)]) false)
  else
    match command with
    | json (JStr text) =>
        let instance := split_dot_first text in
        match instanceHandlers_get instance with
        | NoProperty => throw (UnknownCommandError text)
        | p =>
            id ← lift (get msg "messageId");
            result ← call_property p msg;
            self (sendResultSuccess id result false)
        end
    | _ => throw TypeError
    end.

(** The [catch] block of [receiveMessage]: every branch reads
    [msg.messageId]. *)
Definition report (msg : JSONValue) (err : Thrown) : M unit :=
  match err with
  | BaseError errorCode args =>
      id ← lift (get msg "messageId");
      self (sendResultError id errorCode args)
  | ZWaveError code message =>
      id ← lift (get msg "messageId");
      self (sendResultZWaveError id code message)
  | OtherError _ =>
      id ← lift (get msg "messageId");
      self (sendResultError id ErrorCode.unknownError (JObj []))
  end.

(** [receiveMessage(data)] *)
Definition receiveMessage (data : string) : M unit :=
  match JSON_parse data with
  | None => self socket_close
  | Some msg => try_catch (dispatch msg) (report msg)
  end.

(** [new Client(socket, ...)]: the field initialisers. *)
Definition new_Client (s : WebSocket) : Session :=
  {| receiveEvents := false;
     _outstandingPing := false;
     schemaVersion := json (JNum minSchemaVersion);
     receiveLogs := false;
     additionalUserAgentComponents := undefined;
     socket := s;
     journal := [] |}.

(** [msg.command] of a frame, where the frame parses to an object. *)
Definition command_of (data : string) : Value :=
  match JSON_parse data with
  | Some (JObj members) => member "command" members
  | _ => undefined
  end.

(** The frame is one of the two negotiation commands. *)
Definition negotiates (data : string) : bool :=
  is_string (command_of data) ServerCommand.initialize
  || is_string (command_of data) ServerCommand.setApiSchema.

(** The handler family a frame is delegated to, if any, and the message
    it is given. *)
Definition delegated (data : string) : option (HandlerFamily * JSONValue) :=
  match JSON_parse data with
  | Some (JObj members) =>
      match member "command" members with
      | json (JStr text) =>
          if bool_decide (text ∈ ServerCommand.values) then None
          else match instanceHandlers !! split_dot_first text with
               | Some h => Some (h, JObj members)
               | None => None
               end
      | _ => None
      end
  | _ => None
  end.

(** The state in which [receiveMessage]'s own code runs: what the handler
    family left, if the frame is delegated to one, else the state the
    frame arrived in. *)
Definition handled (data : string) (s : Ctx) : Ctx :=
  match delegated data with
  | Some (h, msg) => (handle h msg s).2
  | None => s
  end.

(** The range [setSchemaVersion] checks against. *)
Definition compatible (v : Z) : Prop :=
  minSchemaVersion <= v <= maxSchemaVersion.

End Session.

(** A concrete gateway. *)
Module Scenario.

Definition envelope (id cmd : string) (rest : list (string * JSONValue)) : JSONValue :=
  JObj ([("messageId", JStr id); ("command", JStr cmd)] ++ rest).

(** The frames the scripted codec decodes, among them the text [null]
    and a negotiation without a version; any other text fails to parse. *)
Definition script : list (string * JSONValue) :=
  [("null", JNull);
   (frame "1" "initialize" (schema "5"),
    envelope "1" "initialize" [("schemaVersion", JNum 5)]);
   (frame "2" "startListening" "", envelope "2" "startListening" []);
   (frame "3" "initialize" (schema "999"),
    envelope "3" "initialize" [("schemaVersion", JNum 999)]);
   (frame "4" "setApiSchema" (schema "7"),
    envelope "4" "setApiSchema" [("schemaVersion", JNum 7)]);
   (frame "8" "initialize" "", envelope "8" "initialize" []);
   (frame "9" "driver.start_listening_logs" "",
    envelope "9" "driver.start_listening_logs" []);
   (frame "10" "node.refresh_info" "", envelope "10" "node.refresh_info" [])].

Definition listen_logs (c : Session) : Session :=
  {| receiveEvents := receiveEvents c;
     _outstandingPing := _outstandingPing c;
     schemaVersion := schemaVersion c;
     receiveLogs := true;
     additionalUserAgentComponents := additionalUserAgentComponents c;
     socket := socket c;
     journal := journal c |}.

(** The driver family turns log delivery on for the session and has the
    controller start its forwarder, the node family rejects with a
    driver error, the others settle to nothing; the registry is the
    forwarder's running flag.  No scripted frame carries a version
    that is a string, an array or an object. *)
#[global] Instance collaborators : Collaborators :=
  {| Driver := JSONValue;
     Registry := bool;
     JSON_parse := fun data => assoc data script;
     less_than := fun _ _ => Normal false;
     greater_than := fun _ _ => Normal false;
     dumpState := fun d v =>
       Normal (JObj [("schemaVersion", match v with json j => j | undefined => JNull end);
                     ("logConfig", d)]);
     dumpLogConfig := fun d _ => Normal d;
     Driver_updateLogConfig := fun _ cfg =>
       (Normal tt, match cfg with json j => j | undefined => JNull end);
     handle := fun h msg s =>
       match h with
       | DriverMessageHandler =>
           (Normal (resolved (json (JObj []))), (listen_logs s.1.1, true, s.2))
       | NodeMessageHandler => (Throw (ZWaveError 202 "Node not found"), s)
       | _ => (Normal (resolved undefined), s)
       end |}.

Definition fresh : Session := new_Client {| readyState := OPEN |}.

Definition start : Session * Registry * Driver :=
  (fresh, false, JObj [("level", JStr "info")]).

End Scenario.

End Untyped.

(** ** The history of the registry *)

Section History.
Context `{ServerCommand.t} `{Instance.t} `{Constants} `{Collaborators}.

(** The version message [sendVersion] builds while the shared controller
    is [d]. *)
Definition greeting (d : Driver) : Effect :=
  SocketSend (VersionMessage libVersion version (Driver_homeId d)
                minSchemaVersion maxSchemaVersion) false.

(** One transition of the gateway. *)
Inductive step : World -> World -> Prop :=
| step_addSocket w s : step w (addSocket s w)
| step_message w i data : step w (on_message i data w)
| step_event w e : step w (forwardEvent e w)
| step_close w i : step w (close_notification w i)
| step_tick w : step w (heartbeat_tick w)
| step_timeouts w : step w (run_timeouts w).

(** [w'] is [w] some transitions later. *)
Inductive evolves (w : World) : World -> Prop :=
| evolves_refl : evolves w w
| evolves_step w1 w2 : evolves w w1 -> step w1 w2 -> evolves w w2.

End History.


(** * Properties *)

(** ** Effects and the journal *)

Lemma sent_record (e : Effect) (c : Client) :
  sent (record e c) =
  sent c ++ match e with SocketSend m z => [(m, z)] | _ => [] end.
Proof.
  unfold sent, record; simpl. rewrite omap_app. f_equal.
  destruct e; reflexivity.
Qed.

Lemma WebSocket_close_not_open (s : WebSocket) :
  readyState (WebSocket_close s) <> OPEN.
Proof.
  unfold WebSocket_close. destruct s as [[]]; simpl; discriminate.
Qed.

Lemma disconnect_not_connected (c : Client) : isConnected (disconnect c) = false.
Proof.
  unfold isConnected, disconnect, socket_close; simpl.
  pose proof (WebSocket_close_not_open (socket c)) as Hc.
  destruct (readyState (WebSocket_close (socket c))); congruence.
Qed.

(** Compute the frames sent by a chain of session methods. *)
Ltac sent_simpl :=
  unfold sent; simpl; rewrite ?omap_app; simpl;
  rewrite ?app_nil_r, <- ?app_assoc; simpl.

(** Unfold the monadic plumbing of a session computation. *)
Ltac run_session :=
  unfold receiveMessage, try_catch, dispatch, report, setSchemaVersion,
    call_property, mbind, M_bind, bind, mret, M_ret, ret, throw, self, this,
    ask, call in *;
  simpl in *.

Section SessionProperties.
Context `{ServerCommand.t} `{Instance.t} `{Constants} `{Collaborators}.

(** C7.  A raw frame that [JSON.parse] rejects makes the session close
    its socket and nothing else: the only effect recorded is the close
    call, no frame is handed to the socket, every session field keeps
    its value, the shared controller is untouched, and the session is
    no longer connected. *)
Theorem parse_failure_closes_without_reply (data : string) (c : Client) (d : Driver) :
  JSON_parse data = None ->
  exists c',
    receiveMessage data (c, d) = (Normal tt, (c', d)) /\
    journal c' = journal c ++ [SocketClose] /\
    sent c' = sent c /\
    isConnected c' = false /\
    receiveEvents c' = receiveEvents c /\
    _outstandingPing c' = _outstandingPing c /\
    schemaVersion c' = schemaVersion c /\
    receiveLogs c' = receiveLogs c /\
    additionalUserAgentComponents c' = additionalUserAgentComponents c.
Proof.
  intros Hparse. exists (socket_close c).
  unfold receiveMessage. rewrite Hparse. unfold self; simpl.
  split; [reflexivity|]. split; [reflexivity|].
  split; [unfold socket_close; rewrite sent_record; apply app_nil_r|].
  split; [apply disconnect_not_connected|].
  repeat split.
Qed.


(** What the [try] block leaves behind: on normal completion exactly one
    success reply addressed to the message, surrounded by assignments
    only; on a throw nothing but assignments.  The socket is not
    touched. *)
Lemma dispatch_effects (msg : IncomingMessage) (c : Client) (d : Driver) :
  match dispatch msg (c, d) with
  | (Normal _, (c', _)) =>
      exists before after result compress,
        journal c' = journal c ++ before
                       ++ SocketSend (ResultSuccess (messageId msg) result) compress :: after /\
        forallb is_assignment before = true /\
        forallb is_assignment after = true /\
        socket c' = socket c
  | (Throw _, (c', _)) =>
      exists before,
        journal c' = journal c ++ before /\
        forallb is_assignment before = true /\
        socket c' = socket c
  end.
Proof.
  unfold dispatch.
  repeat match goal with
  | |- context [String.eqb ?a ?b] => destruct (String.eqb a b)
  end.
  all: run_session.
  all: repeat match goal with
  | |- context [(?a <? ?b) || (?x >? ?y)] => destruct ((a <? b) || (x >? y))
  | |- context [dumpState ?a ?b] => destruct (dumpState a b)
  | |- context [dumpLogConfig ?a ?b] => destruct (dumpLogConfig a b)
  | |- context [Driver_updateLogConfig ?a ?b] => destruct (Driver_updateLogConfig a b) as [[[]|] ?]
  | |- context [instanceHandlers_get ?a] => destruct (instanceHandlers_get a)
  | |- context [handle ?a ?b ?c] => destruct (handle a b c) as [[|] ?]
  | |- context [call_inherited ?a ?b] => destruct (call_inherited a b)
  end; simpl.
  all: try (exists []; rewrite app_nil_r; repeat split; reflexivity).
  all: try (exists [Assign F_schemaVersion]; repeat split; reflexivity).
  all: try (eexists [], [], _, _; rewrite <- ?app_assoc; repeat split; reflexivity).
  all: try (eexists [Assign F_schemaVersion], [], _, _; rewrite <- ?app_assoc;
            repeat split; reflexivity).
  all: try (eexists [Assign F_schemaVersion; Assign F_additionalUserAgentComponents],
              [], _, _; rewrite <- ?app_assoc; repeat split; reflexivity).
  all: try (eexists [], [Assign F_receiveEvents], _, _; rewrite <- ?app_assoc;
            repeat split; reflexivity).
Qed.





(** The session-level effect of an accepted [startListening]. *)
Lemma startListening_effects
    (data : string) (msg : IncomingMessage) (c : Client) (d : Driver) (state : JSONValue) :
  JSON_parse data = Some msg ->
  command msg = ServerCommand.startListening ->
  ServerCommand.startListening <> ServerCommand.initialize ->
  ServerCommand.startListening <> ServerCommand.setApiSchema ->
  dumpState d (schemaVersion c) = Normal state ->
  receiveMessage data (c, d) =
    (Normal tt,
     (set_receiveEvents true
        (sendResultSuccess (messageId msg) (Json (JObj [("state", state)])) true c),
      d)).
Proof.
  intros Hparse Hc Hi Hs Hdump.
  apply String.eqb_neq in Hi, Hs.
  unfold receiveMessage. rewrite Hparse.
  unfold try_catch, dispatch. rewrite Hc, Hi, Hs, String.eqb_refl.
  unfold mbind, M_bind, bind, this, ask, self. cbn [fst snd].
  rewrite Hdump. reflexivity.
Qed.

(** The own keys of [instanceHandlers] are the values of [Instance]. *)
Lemma instanceHandlers_own (key : string) :
  instanceHandlers !! key = None <-> key ∉ Instance.values.
Proof.
  unfold instanceHandlers, Instance.values.
  rewrite !lookup_insert_None, lookup_empty, !not_elem_of_cons, elem_of_nil.
  intuition congruence.
Qed.

(** X12.  A command outside the built-in ones whose namespace is neither a key
    of [instanceHandlers] nor the name of a property inherited from
    [Object.prototype] is answered by the unknown-command error, and
    nothing else happens. *)
Lemma unknown_namespace_reply
    (data : string) (msg : IncomingMessage) (c : Client) (d : Driver) :
  JSON_parse data = Some msg ->
  command msg ∉ ServerCommand.values ->
  split_dot_first (command msg) ∉ Instance.values ->
  assoc (split_dot_first (command msg)) Object_prototype = None ->
  receiveMessage data (c, d) =
    (Normal tt,
     (sendResultError (messageId msg) ErrorCode.unknownCommand
        (JObj [("command", JStr (command msg))]) c, d)).
Proof.
  intros Hparse Hb Hown Hproto.
  unfold ServerCommand.values in Hb.
  rewrite !not_elem_of_cons in Hb.
  destruct Hb as (E1 & E2 & E3 & E4 & E5 & _).
  apply String.eqb_neq in E1, E2, E3, E4, E5.
  apply instanceHandlers_own in Hown.
  unfold receiveMessage. rewrite Hparse.
  unfold try_catch, dispatch. rewrite E1, E2, E3, E4, E5.
  unfold instanceHandlers_get. rewrite Hown, Hproto. reflexivity.
Qed.

End SessionProperties.

(** ** The registry: heartbeat, cleanup and the logging forwarder *)

Lemma tick_fold (l : list Client) (acc : list Client * list Client) :
  foldl ClientsController.tick_step acc l =
  (acc.1 ++ List.filter isConnected l,
   acc.2 ++ map disconnect (List.filter (fun c => negb (isConnected c)) l)).
Proof.
  revert acc. induction l as [|c l IH]; intros [kept dropped]; simpl.
  - rewrite !app_nil_r. reflexivity.
  - rewrite IH. unfold ClientsController.tick_step.
    destruct (isConnected c); simpl; rewrite <- ?app_assoc; reflexivity.
Qed.

(** The interval callback keeps exactly the connected sessions, each one
    as it was, and calls [disconnect] on the others. *)
Lemma pingInterval_callback_spec (cc : ClientsController.t) :
  ClientsController.pingInterval_callback cc =
  (ClientsController.set_clients
     (List.filter isConnected (ClientsController.clients cc)) cc,
   map disconnect
     (List.filter (fun c => negb (isConnected c)) (ClientsController.clients cc))).
Proof.
  unfold ClientsController.pingInterval_callback. rewrite tick_fold. reflexivity.
Qed.

(** [checkAlive] is the probe the design describes: it pings a session with
    no probe outstanding and raises the flag, and it disconnects, without a
    new ping, a session whose previous probe is still outstanding. *)
Lemma checkAlive_spec (c : Client) :
  (_outstandingPing c = false ->
     journal (checkAlive c) = journal c ++ [Assign F_outstandingPing; SocketPing] /\
     _outstandingPing (checkAlive c) = true /\
     socket (checkAlive c) = socket c) /\
  (_outstandingPing c = true ->
     journal (checkAlive c) = journal c ++ [SocketClose] /\
     isConnected (checkAlive c) = false).
Proof.
  unfold checkAlive. split; intros ->; simpl.
  - rewrite <- app_assoc. auto.
  - split; [reflexivity | apply disconnect_not_connected].
Qed.

Lemma cleanupLoggingEventForwarder_clients (cc : ClientsController.t) :
  ClientsController.clients (ClientsController.cleanupLoggingEventForwarder cc)
  = ClientsController.clients cc.
Proof.
  unfold ClientsController.cleanupLoggingEventForwarder.
  destruct (_ && _); reflexivity.
Qed.

Lemma cleanupLoggingEventForwarder_cleanupScheduled (cc : ClientsController.t) :
  ClientsController.cleanupScheduled (ClientsController.cleanupLoggingEventForwarder cc)
  = ClientsController.cleanupScheduled cc.
Proof.
  unfold ClientsController.cleanupLoggingEventForwarder.
  destruct (_ && _); reflexivity.
Qed.

(** [cleanupLoggingEventForwarder] stops a running forwarder when no
    registered session receives logs, and changes nothing otherwise. *)
Lemma cleanupLoggingEventForwarder_started (cc : ClientsController.t) :
  ClientsController.loggingEventForwarderStarted
    (ClientsController.cleanupLoggingEventForwarder cc)
  = ClientsController.loggingEventForwarderStarted cc
    && negb (Nat.eqb (ClientsController.logListeners cc) 0).
Proof.
  unfold ClientsController.cleanupLoggingEventForwarder.
  destruct (Nat.eqb (ClientsController.logListeners cc) 0) eqn:Hn; simpl.
  - destruct (ClientsController.loggingEventForwarderStarted cc) eqn:Hs; simpl.
    + unfold ClientsController.loggingEventForwarderStarted in *; simpl.
      destruct (ClientsController.loggingEventForwarder cc); [reflexivity | discriminate].
    + exact Hs.
  - rewrite andb_true_r. reflexivity.
Qed.

Lemma logListeners_pos (cc : ClientsController.t) :
  Nat.eqb (ClientsController.logListeners cc) 0 = false ->
  exists c, c ∈ ClientsController.clients cc /\ receiveLogs c = true.
Proof.
  unfold ClientsController.logListeners. intros Hn.
  destruct (List.filter receiveLogs (ClientsController.clients cc)) as [|c l] eqn:Hf;
    [discriminate|].
  exists c.
  assert (In c (List.filter receiveLogs (ClientsController.clients cc))) as Hin
    by (rewrite Hf; left; reflexivity).
  apply filter_In in Hin as [Hin Hr].
  split; [apply list_elem_of_In, Hin | exact Hr].
Qed.

Section RuntimeProperties.
Context `{ServerCommand.t} `{Instance.t} `{Constants} `{Collaborators}.

Lemma scheduleClientCleanup_coalesced (w : World) :
  coalesced w ->
  timeouts (scheduleClientCleanup w) = [CleanupClients] /\
  ClientsController.cleanupScheduled (sockets (scheduleClientCleanup w)) = true /\
  ClientsController.clients (sockets (scheduleClientCleanup w))
    = ClientsController.clients (sockets w) /\
  ClientsController.loggingEventForwarder (sockets (scheduleClientCleanup w))
    = ClientsController.loggingEventForwarder (sockets w) /\
  shared (scheduleClientCleanup w) = shared w.
Proof.
  unfold coalesced, scheduleClientCleanup. intros Hc.
  destruct (ClientsController.cleanupScheduled (sockets w)) eqn:Hs; simpl.
  - rewrite Hc, Hs. auto.
  - rewrite Hc. auto.
Qed.

Lemma close_notification_coalesced (w : World) (i : nat) :
  coalesced w ->
  coalesced (close_notification w i) /\
  timeouts (close_notification w i) = [CleanupClients].
Proof.
  intros Hc. unfold close_notification, on_close.
  assert (coalesced (transport_closed i w)) as Hc' by exact Hc.
  destruct (scheduleClientCleanup_coalesced _ Hc') as (Ht & Hs & _).
  split; [|exact Ht]. unfold coalesced. rewrite Ht, Hs. reflexivity.
Qed.

Lemma run_timeouts_one (w : World) :
  timeouts w = [CleanupClients] ->
  run_timeouts w =
    {| sockets := ClientsController.cleanupClients (sockets w);
       shared := shared w;
       timeouts := [] |}.
Proof. unfold run_timeouts. intros ->. reflexivity. Qed.

Lemma run_timeouts_coalesced (w : World) : coalesced w -> coalesced (run_timeouts w).
Proof.
  unfold coalesced. intros Hc.
  destruct (ClientsController.cleanupScheduled (sockets w)) eqn:Hs.
  - rewrite (run_timeouts_one w Hc). simpl.
    unfold ClientsController.cleanupClients.
    rewrite cleanupLoggingEventForwarder_cleanupScheduled. reflexivity.
  - unfold run_timeouts. rewrite Hc. simpl. rewrite Hs. reflexivity.
Qed.

Lemma on_message_controller (w : World) (i : nat) (data : string) :
  timeouts (on_message i data w) = timeouts w /\
  ClientsController.cleanupScheduled (sockets (on_message i data w))
    = ClientsController.cleanupScheduled (sockets w) /\
  ClientsController.loggingEventForwarder (sockets (on_message i data w))
    = ClientsController.loggingEventForwarder (sockets w).
Proof.
  unfold on_message.
  destruct (ClientsController.clients (sockets w) !! i); [|auto].
  destruct (receiveMessage data (c, shared w)) as [r [c' d']]. simpl. auto.
Qed.

(** X17.  Every reachable world is [coalesced]. *)
Lemma reachable_coalesced (w : World) : reachable w -> coalesced w.
Proof.
  induction 1 as [d|w s _ IH|w i data _ IH|w e _ IH|w i _ IH|w _ IH|w _ IH].
  - reflexivity.
  - unfold coalesced, addSocket in *. simpl.
    destruct (ClientsController.pingInterval _);
      destruct (ClientsController.eventForwarder _); simpl; exact IH.
  - unfold coalesced in *.
    destruct (on_message_controller w i data) as (-> & -> & _). exact IH.
  - exact IH.
  - apply close_notification_coalesced, IH.
  - unfold coalesced, heartbeat_tick in *. simpl.
    rewrite pingInterval_callback_spec. simpl. exact IH.
  - apply run_timeouts_coalesced, IH.
Qed.

(** C6.  However many close notifications (at least one) arrive before
    the scheduler runs its zero-delay timers, exactly one cleanup pass is
    pending afterwards; the scheduler turn runs [cleanupClients] once and
    leaves nothing pending.  That pass clears the flag, keeps exactly
    the connected sessions, and re-evaluates the logging forwarder: it
    is running afterwards only if it was running and a remaining session
    receives logs. *)
Theorem close_notifications_coalesce (w : World) (closing : list nat) :
  (1 <= length closing)%nat ->
  coalesced w ->
  let w' := foldl close_notification w closing in
  let w'' := run_timeouts w' in
  timeouts w' = [CleanupClients] /\
  w'' = {| sockets := ClientsController.cleanupClients (sockets w');
           shared := shared w';
           timeouts := [] |} /\
  ClientsController.cleanupScheduled (sockets w'') = false /\
  ClientsController.clients (sockets w'')
    = List.filter isConnected (ClientsController.clients (sockets w')) /\
  ClientsController.loggingEventForwarderStarted (sockets w'')
    = ClientsController.loggingEventForwarderStarted (sockets w')
      && negb (Nat.eqb (ClientsController.logListeners (sockets w'')) 0).
Proof.
  intros Hn Hc.
  assert (coalesced (foldl close_notification w closing)
          /\ timeouts (foldl close_notification w closing) = [CleanupClients])
    as [_ Ht].
  { revert w Hc. induction closing as [|i l IH]; intros w Hc;
      [simpl in Hn; lia|].
    simpl. destruct (close_notification_coalesced w i Hc) as [Hc1 Ht1].
    destruct l as [|j l]; [simpl; auto|].
    apply IH; [simpl; lia | exact Hc1]. }
  cbv zeta. rewrite (run_timeouts_one _ Ht). simpl.
  split; [exact Ht|]. split; [reflexivity|].
  unfold ClientsController.cleanupClients.
  rewrite cleanupLoggingEventForwarder_cleanupScheduled,
    cleanupLoggingEventForwarder_clients, cleanupLoggingEventForwarder_started.
  simpl. repeat split.
  unfold ClientsController.logListeners.
  rewrite cleanupLoggingEventForwarder_clients. reflexivity.
Qed.

(** A cleanup pass and a full teardown both end
    with [cleanupLoggingEventForwarder]: afterwards the logging forwarder
    is running only if it was running before and some registered session
    receives logs, so with no such session left it is stopped; the pass
    never starts it.  The built-in [updateLogConfig] and [getLogConfig]
    commands leave the forwarder as it is. *)
Theorem cleanup_pass_stops_idle_forwarder :
  (forall cc : ClientsController.t,
     let pass := ClientsController.cleanupClients cc in
     let down := (ClientsController.disconnect cc).1 in
     ClientsController.clients pass
       = List.filter isConnected (ClientsController.clients cc) /\
     ClientsController.loggingEventForwarderStarted pass
       = ClientsController.loggingEventForwarderStarted cc
         && negb (Nat.eqb (ClientsController.logListeners pass) 0) /\
     (ClientsController.loggingEventForwarderStarted pass = true ->
        exists c, c ∈ ClientsController.clients pass /\ receiveLogs c = true) /\
     (ClientsController.logListeners pass = 0%nat ->
        ClientsController.loggingEventForwarderStarted pass = false) /\
     ClientsController.clients down = [] /\
     ClientsController.loggingEventForwarderStarted down = false) /\
  (forall (w : World) (i : nat) (data : string) (msg : IncomingMessage),
     JSON_parse data = Some msg ->
     command msg = ServerCommand.updateLogConfig
     \/ command msg = ServerCommand.getLogConfig ->
     ClientsController.loggingEventForwarder (sockets (on_message i data w))
     = ClientsController.loggingEventForwarder (sockets w)).
Proof.
  split.
  - intros cc pass down.
    assert (ClientsController.loggingEventForwarderStarted pass
            = ClientsController.loggingEventForwarderStarted cc
              && negb (Nat.eqb (ClientsController.logListeners pass) 0)) as Hs.
    { unfold pass, ClientsController.cleanupClients.
      rewrite cleanupLoggingEventForwarder_started.
      unfold ClientsController.logListeners.
      rewrite cleanupLoggingEventForwarder_clients. reflexivity. }
    split; [|split; [exact Hs|split; [|split; [|split]]]].
    + unfold pass, ClientsController.cleanupClients.
      rewrite cleanupLoggingEventForwarder_clients. reflexivity.
    + intros Hrun. rewrite Hrun in Hs. symmetry in Hs.
      apply andb_prop in Hs as [_ Hn]. apply negb_true_iff in Hn.
      apply logListeners_pos, Hn.
    + intros Hz. rewrite Hs, Hz. simpl. apply andb_false_r.
    + unfold down, ClientsController.disconnect. simpl.
      rewrite cleanupLoggingEventForwarder_clients. reflexivity.
    + unfold down, ClientsController.disconnect. simpl.
      rewrite cleanupLoggingEventForwarder_started. simpl. apply andb_false_r.
  - intros w i data msg _ _. apply on_message_controller.
Qed.

(** *** Event delivery around [startListening] *)

Lemma forwardEvent_lookup (e : JSONValue) (w : World) (i : nat) :
  ClientsController.clients (sockets (forwardEvent e w)) !! i
  = (fun c => if receiveEvents c then sendEvent e c else c)
      <$> ClientsController.clients (sockets w) !! i.
Proof. unfold forwardEvent; simpl. apply list_lookup_fmap. Qed.

Lemma publish_not_listening (events : list JSONValue) (w : World) (i : nat) (c : Client) :
  ClientsController.clients (sockets w) !! i = Some c ->
  receiveEvents c = false ->
  ClientsController.clients (sockets (publish events w)) !! i = Some c /\
  shared (publish events w) = shared w.
Proof.
  revert w. induction events as [|e l IH]; intros w Hi Hr; simpl; [auto|].
  destruct (IH (forwardEvent e w)) as [IH1 IH2]; [|exact Hr|auto].
  rewrite forwardEvent_lookup, Hi. simpl. rewrite Hr. reflexivity.
Qed.

Lemma publish_listening (events : list JSONValue) (w : World) (i : nat) (c : Client) :
  ClientsController.clients (sockets w) !! i = Some c ->
  receiveEvents c = true ->
  exists c',
    ClientsController.clients (sockets (publish events w)) !! i = Some c' /\
    journal c' = journal c ++ map event_frame events /\
    receiveEvents c' = true.
Proof.
  revert w c. induction events as [|e l IH]; intros w c Hi Hr; simpl.
  - exists c. rewrite app_nil_r. auto.
  - destruct (IH (forwardEvent e w) (sendEvent e c)) as (c' & Hl & Hj & Hr').
    + rewrite forwardEvent_lookup, Hi. simpl. rewrite Hr. reflexivity.
    + exact Hr.
    + exists c'. split; [exact Hl|]. split; [|exact Hr'].
      rewrite Hj. simpl. rewrite <- app_assoc. reflexivity.
Qed.

Lemma on_message_lookup (w : World) (i : nat) (data : string) (c c' : Client)
    (r : Completion unit) (d' : Driver) :
  ClientsController.clients (sockets w) !! i = Some c ->
  receiveMessage data (c, shared w) = (r, (c', d')) ->
  ClientsController.clients (sockets (on_message i data w)) !! i = Some c'.
Proof.
  intros Hi Hrun. unfold on_message. rewrite Hi, Hrun. simpl.
  apply list_lookup_insert_eq. eapply lookup_lt_Some, Hi.
Qed.

(** C4.  A session that is not yet listening gets none of the events
    published before its [startListening] request.  Handling the
    request first hands the result reply with the full state snapshot to
    the socket, with compression, and then assigns [receiveEvents]; these
    are its only two effects, and no event can fall between them.
    Every event published afterwards is delivered to the session, once
    and in publication order, after the snapshot reply. *)
Theorem startListening_snapshot_then_events
    (w : World) (i : nat) (c : Client) (data : string) (msg : IncomingMessage)
    (state : JSONValue) (before after : list JSONValue) :
  ClientsController.clients (sockets w) !! i = Some c ->
  receiveEvents c = false ->
  JSON_parse data = Some msg ->
  command msg = ServerCommand.startListening ->
  ServerCommand.startListening <> ServerCommand.initialize ->
  ServerCommand.startListening <> ServerCommand.setApiSchema ->
  dumpState (shared w) (schemaVersion c) = Normal state ->
  let snapshot :=
    SocketSend (ResultSuccess (messageId msg) (Json (JObj [("state", state)]))) true in
  let w1 := publish before w in
  let w2 := on_message i data w1 in
  let w3 := publish after w2 in
  exists c2 c3,
    ClientsController.clients (sockets w1) !! i = Some c /\
    ClientsController.clients (sockets w2) !! i = Some c2 /\
    journal c2 = journal c ++ [snapshot; Assign F_receiveEvents] /\
    receiveEvents c2 = true /\
    ClientsController.clients (sockets w3) !! i = Some c3 /\
    journal c3 = journal c ++ [snapshot; Assign F_receiveEvents] ++ map event_frame after /\
    receiveEvents c3 = true.
Proof.
  intros Hi Hr Hparse Hc Hni Hns Hdump. cbv zeta.
  destruct (publish_not_listening before w i c Hi Hr) as [L1 Hd1].
  pose proof (startListening_effects data msg c (shared (publish before w)) state
                Hparse Hc Hni Hns) as Hrun.
  rewrite Hd1 in Hrun. specialize (Hrun Hdump).
  rewrite <- Hd1 in Hrun.
  pose proof (on_message_lookup _ i data _ _ _ _ L1 Hrun) as L2.
  destruct (publish_listening after _ i _ L2 eq_refl) as (c3 & L3 & Hj3 & Hr3).
  eexists _, c3. split; [exact L1|]. split; [exact L2|].
  split; [simpl; rewrite <- app_assoc; reflexivity|].
  split; [reflexivity|]. split; [exact L3|]. split; [|exact Hr3].
  rewrite Hj3. simpl. rewrite <- !app_assoc. reflexivity.
Qed.

End RuntimeProperties.

Example scenario_initialize :
  sent (receiveMessage (frame "1" "initialize" (schema "5")) (fresh, controller0)).2.1
  = [(ResultSuccess "1" (Json (JObj [])), false)].
Proof. reflexivity. Qed.

Example scenario_startListening :
  let c := (receiveMessage (frame "2" "startListening" "") (fresh, controller0)).2.1 in
  receiveEvents c = true /\
  sent c = [(ResultSuccess "2"
               (Json (JObj [("state", JObj [("schemaVersion", JNum 1);
                                            ("logConfig", controller0)])])), true)].
Proof. split; reflexivity. Qed.

Example scenario_unknown_namespace :
  sent (receiveMessage (frame "6" "bogus.doThing" "") (fresh, controller0)).2.1
  = [(ResultError "6" ErrorCode.unknownCommand (JObj [("command", JStr "bogus.doThing")]),
      false)].
Proof. reflexivity. Qed.

(** ** The properties at work on the concrete gateway *)

Lemma parse_failure_closes_without_reply_witness :
  JSON_parse "not json" = None /\
  exists c',
    receiveMessage "not json" (fresh, controller0) = (Normal tt, (c', controller0)) /\
    journal c' = [SocketClose] /\
    isConnected c' = false.
Proof.
  split; [reflexivity|].
  destruct (parse_failure_closes_without_reply "not json" fresh controller0 eq_refl)
    as (c' & Hrun & Hj & _ & Hconn & _).
  exists c'. split; [exact Hrun|]. split; [exact Hj | exact Hconn].
Defined.

(** C1, as stated, fails: a fresh session holds version 1; after an
    [initialize] that asks for version 999 it has answered with the
    schema-incompatibility error and holds 999, outside [1, 10]. *)
Lemma rejected_negotiation_is_stored :
  let c' := (receiveMessage (frame "3" "initialize" (schema "999")) (fresh, controller0)).2.1 in
  sent c' = [(ResultError "3" ErrorCode.schemaIncompatible (JObj [("schemaId", JNum 999)]),
              false)] /\
  schemaVersion fresh = 1 /\
  schemaVersion c' = 999 /\
  schemaVersion c' <> schemaVersion fresh /\
  ~ compatible (schemaVersion c').
Proof.
  cbv zeta. split; [reflexivity|]. split; [reflexivity|]. split; [reflexivity|].
  split.
  - discriminate.
  - unfold compatible. simpl. lia.
Qed.


Lemma startListening_snapshot_then_events_witness :
  let greeted := sendVersion controller0 fresh in
  let snapshot :=
    SocketSend
      (ResultSuccess "2"
         (Json (JObj [("state", JObj [("schemaVersion", JNum 1);
                                      ("logConfig", controller0)])]))) true in
  let w3 := publish [JStr "c"; JStr "d"]
              (on_message 0 (frame "2" "startListening" "")
                 (publish [JStr "a"; JStr "b"] one_client)) in
  ClientsController.clients (sockets one_client) !! 0%nat = Some greeted /\
  exists c3,
    ClientsController.clients (sockets w3) !! 0%nat = Some c3 /\
    journal c3 = journal greeted
                   ++ [snapshot; Assign F_receiveEvents]
                   ++ [event_frame (JStr "c"); event_frame (JStr "d")].
Proof.
  cbv zeta. split; [reflexivity|].
  destruct (startListening_snapshot_then_events one_client 0
              (sendVersion controller0 fresh)
              (frame "2" "startListening" "") (message "2" "startListening" 0)
              (JObj [("schemaVersion", JNum 1); ("logConfig", controller0)])
              [JStr "a"; JStr "b"] [JStr "c"; JStr "d"])
    as (c2 & c3 & _ & _ & _ & _ & Hl & Hj & _);
    try reflexivity; try discriminate.
  exists c3. split; [exact Hl | exact Hj].
Defined.

Lemma close_notifications_coalesce_witness :
  let w := addSocket {| readyState := OPEN |} one_client in
  let w' := foldl close_notification w [1%nat; 1%nat; 0%nat] in
  coalesced w /\
  timeouts w' = [CleanupClients] /\
  ClientsController.clients (sockets (run_timeouts w')) = [] /\
  timeouts (run_timeouts w') = [].
Proof.
  cbv zeta. split; [reflexivity|].
  destruct (close_notifications_coalesce
              (addSocket {| readyState := OPEN |} one_client) [1%nat; 1%nat; 0%nat])
    as (Ht & Hrun & _ & Hc & _); [simpl; lia | reflexivity |].
  split; [exact Ht|]. split.
  - rewrite Hc. reflexivity.
  - rewrite Hrun. reflexivity.
Defined.

(** C5 on the code: the interval callback drops sessions without the
    check its sibling makes.  With one log listener registered the
    forwarder runs.  The listener's transport is gone when the heartbeat
    fires: the callback drops the session and leaves the forwarder
    running with no listener registered; the remaining session then sends
    [updateLogConfig], is answered, and the forwarder is still running
    with no listener.  On the same registry [cleanupClients] drops the
    same session and stops the forwarder. *)
Theorem forwarder_outlives_last_listener :
  let w1 := heartbeat_tick logging_world in
  let w2 := on_message 0 (frame "5" "updateLogConfig" "") w1 in
  let pass := ClientsController.cleanupClients (sockets logging_world) in
  (ClientsController.loggingEventForwarderStarted (sockets logging_world) = true /\
   ClientsController.logListeners (sockets logging_world) = 1%nat) /\
  (ClientsController.clients (sockets w1) = [fresh] /\
   ClientsController.loggingEventForwarderStarted (sockets w1) = true /\
   ClientsController.logListeners (sockets w1) = 0%nat) /\
  (map sent (ClientsController.clients (sockets w2))
     = [[(ResultSuccess "5" (Json (JObj [])), false)]] /\
   ClientsController.loggingEventForwarderStarted (sockets w2) = true /\
   ClientsController.logListeners (sockets w2) = 0%nat) /\
  (ClientsController.clients pass = [fresh] /\
   ClientsController.loggingEventForwarderStarted pass = false /\
   ClientsController.logListeners pass = 0%nat).
Proof. cbv zeta. repeat split; reflexivity. Qed.

Lemma cleanup_pass_stops_idle_forwarder_witness :
  let cc := sockets logging_world in
  JSON_parse (frame "5" "updateLogConfig" "") = Some (message "5" "updateLogConfig" 0) /\
  ClientsController.logListeners (ClientsController.cleanupClients cc) = 0%nat /\
  ClientsController.loggingEventForwarderStarted (ClientsController.cleanupClients cc)
    = false /\
  ClientsController.loggingEventForwarder
    (sockets (on_message 0 (frame "5" "updateLogConfig" "") logging_world))
  = ClientsController.loggingEventForwarder cc.
Proof.
  cbv zeta. split; [reflexivity|]. split; [reflexivity|].
  destruct cleanup_pass_stops_idle_forwarder as [Hpass Hcmd].
  split.
  - destruct (Hpass (sockets logging_world)) as (_ & _ & _ & Hz & _).
    apply Hz. reflexivity.
  - apply (Hcmd logging_world 0%nat (frame "5" "updateLogConfig" "")
             (message "5" "updateLogConfig" 0)); [reflexivity | left; reflexivity].
Defined.

(** C2 on the code: the interval callback never probes.  One client
    connects and two heartbeat ticks pass: the registry is exactly as
    before, the session is still connected, its flag was never raised and
    no ping was sent.  [checkAlive], which the callback does not call,
    would have sent the ping and, unanswered, closed the session at its
    second call. *)
Theorem heartbeat_tick_does_not_probe :
  let w := heartbeat_tick (heartbeat_tick one_client) in
  sockets w = sockets one_client /\
  exists c,
    ClientsController.clients (sockets w) = [c] /\
    isConnected c = true /\
    _outstandingPing c = false /\
    (SocketPing ∉ journal c) /\
    journal (checkAlive c) = journal c ++ [Assign F_outstandingPing; SocketPing] /\
    isConnected (checkAlive (checkAlive c)) = false.
Proof.
  cbv zeta. split; [reflexivity|].
  eexists. split; [reflexivity|]. split; [reflexivity|]. split; [reflexivity|].
  split; [|split; reflexivity].
  simpl. rewrite not_elem_of_cons. split; [discriminate | apply not_elem_of_nil].
Qed.

(** C8 on the code: [toString] is no built-in command and names no
    handler family, yet [instanceHandlers["toString"]] is the function
    inherited from [Object.prototype]; the session calls it and answers
    with a success reply instead of the unknown-command error. *)
Theorem inherited_property_is_dispatched :
  let msg := message "7" "toString" 0 in
  JSON_parse (frame "7" "toString" "") = Some msg /\
  (command msg ∉ ServerCommand.values) /\
  (split_dot_first (command msg) ∉ Instance.values) /\
  instanceHandlers_get (split_dot_first (command msg)) = Inherited P_toString /\
  sent (receiveMessage (frame "7" "toString" "") (fresh, controller0)).2.1
    = [(ResultSuccess "7" (Json (JStr "[object Object]")), false)].
Proof.
  cbv zeta. split; [reflexivity|].
  split; [|split; [|split; reflexivity]].
  - unfold ServerCommand.values. rewrite !not_elem_of_cons.
    repeat split; try discriminate. apply not_elem_of_nil.
  - unfold Instance.values. rewrite !not_elem_of_cons.
    repeat split; try discriminate. apply not_elem_of_nil.
Qed.

(** C9.  The controller message surface admits both spellings of the two
    renamed commands, each pair through a single interface and so with the
    same payload: [removeNodeFromAllAssociations] and
    [removeNodeFromAllAssocations] (payload [nodeId]), and
    [isAnyOTAFirmwareUpdateInProgress] and [getAnyFirmwareUpdateProgress]
    (no payload). *)
Theorem both_spellings_accepted :
  coexist ControllerCommand.removeNodeFromAllAssociations
          ControllerCommand.removeNodeFromAllAssocations
          IncomingCommandControllerRemoveNodeFromAllAssociations /\
  properties IncomingCommandControllerRemoveNodeFromAllAssociations = [("nodeId", false)] /\
  coexist ControllerCommand.isAnyOTAFirmwareUpdateInProgress
          ControllerCommand.getAnyFirmwareUpdateProgress
          IncomingCommandControllerIsAnyOTAFirmwareUpdateInProgress /\
  properties IncomingCommandControllerIsAnyOTAFirmwareUpdateInProgress = [].
Proof.
  unfold coexist. repeat split; try discriminate; reflexivity.
Qed.

(** * Further properties of the session *)

Lemma checkAlive_sent (c : Client) : sent (checkAlive c) = sent c.
Proof. unfold checkAlive. destruct (_outstandingPing c); sent_simpl; reflexivity. Qed.

(** X1.  Two probes in a row with no [pong] in between always end with the
    session disconnected, whatever state it was in; at most one ping goes
    out and no frame is sent. *)
Theorem checkAlive_twice_disconnects (c : Client) :
  let c2 := checkAlive (checkAlive c) in
  isConnected c2 = false /\
  (pings c2 <= pings c + 1)%nat /\
  (1 <= closes c2 - closes c)%nat /\
  sent c2 = sent c.
Proof.
  cbv zeta. split; [|split; [|split]].
  - unfold checkAlive at 2. destruct (_outstandingPing c) eqn:Hp.
    + unfold checkAlive. simpl. rewrite Hp. apply disconnect_not_connected.
    + unfold checkAlive. simpl. apply disconnect_not_connected.
  - unfold checkAlive, pings. destruct (_outstandingPing c) eqn:Hp; simpl;
      rewrite ?Hp; simpl; rewrite ?List.filter_app; simpl;
      rewrite ?length_app; simpl; lia.
  - unfold checkAlive, closes. destruct (_outstandingPing c) eqn:Hp; simpl;
      rewrite ?Hp; simpl; rewrite ?List.filter_app; simpl;
      rewrite ?length_app; simpl; lia.
  - rewrite !checkAlive_sent. reflexivity.
Qed.

(** X2.  As long as every probe is answered by a [pong] before the next one,
    probing never closes the session: after [n] answered probes the socket
    is as it was, no probe is outstanding, exactly [n] pings went out and
    nothing else changed. *)
Theorem acknowledged_probes_keep_session (n : nat) (c : Client) :
  _outstandingPing c = false ->
  let c' := Nat.iter n acknowledged_probe c in
  socket c' = socket c /\
  _outstandingPing c' = false /\
  pings c' = (pings c + n)%nat /\
  closes c' = closes c /\
  sent c' = sent c /\
  schemaVersion c' = schemaVersion c /\
  receiveEvents c' = receiveEvents c /\
  receiveLogs c' = receiveLogs c.
Proof.
  intros Hp. cbv zeta. induction n as [|n IH]; simpl.
  - rewrite Nat.add_0_r. repeat split; auto.
  - destruct IH as (Hs & Hf & Hpi & Hcl & Hse & Hv & He & Hl).
    set (c1 := Nat.iter n acknowledged_probe c) in *.
    unfold acknowledged_probe, on_pong, checkAlive. rewrite Hf. simpl.
    repeat split; auto.
    + unfold pings in *. simpl. rewrite !List.filter_app, !length_app. simpl. lia.
    + unfold closes in *. simpl. rewrite !List.filter_app, !length_app. simpl. lia.
    + rewrite <- Hse. sent_simpl. reflexivity.
Qed.

Lemma split_dot_first_append (a b : string) :
  dotless a -> split_dot_first (a +:+ String dot b) = a.
Proof.
  unfold dotless. induction a as [|x a IH]; simpl; intros Hd.
  - reflexivity.
  - destruct (Ascii.eqb_spec x dot) as [->|Hx]; [exfalso; apply Hd; left; reflexivity|].
    f_equal. apply IH. intros Hin. apply Hd. right. exact Hin.
Qed.

(** X3.  [command.split(".")[0]] is the namespace: the text before the first
    dot of [namespace.verb], and the whole command when it has no dot. *)
Theorem split_dot_first_namespace (a b : string) :
  dotless a ->
  split_dot_first (a +:+ String dot b) = a /\
  split_dot_first a = a.
Proof.
  intros Hd. split; [apply split_dot_first_append, Hd|].
  unfold dotless in Hd. induction a as [|x a IH]; simpl; [reflexivity|].
  destruct (Ascii.eqb_spec x dot) as [->|Hx]; [exfalso; apply Hd; left; reflexivity|].
  f_equal. apply IH. intros Hin. apply Hd. right. exact Hin.
Qed.

(** X4.  Whatever the command, its namespace holds no dot and is a prefix of
    the command, followed by nothing or by a dot. *)
Theorem split_dot_first_prefix (s : string) :
  dotless (split_dot_first s) /\
  (split_dot_first s = s \/
   exists rest, s = split_dot_first s +:+ String dot rest).
Proof.
  unfold dotless. induction s as [|x s [IHd IHp]]; simpl.
  - split; [tauto | left; reflexivity].
  - destruct (Ascii.eqb_spec x dot) as [->|Hx]; simpl.
    + split; [tauto|]. right. exists s. reflexivity.
    + split; [intros [Hin|Hin]; [congruence | tauto]|].
      destruct IHp as [Heq|[rest Heq]].
      * left. rewrite Heq. reflexivity.
      * right. exists rest. rewrite Heq at 1. reflexivity.
Qed.

Section SessionFrame.
Context `{ServerCommand.t} `{Instance.t} `{Constants} `{Collaborators}.

Lemma report_sends_error_reply (msg : IncomingMessage) (e : Thrown) (c : Client) (d : Driver) :
  report msg e (c, d) = (Normal tt, (sendData (error_reply (messageId msg) e) false c, d)).
Proof. destruct e; reflexivity. Qed.

(** X7.  [updateLogConfig] hands the message's [config] to the driver and
    answers with the empty success result, or with the error reply for
    what the driver threw; the shared controller is whatever the driver
    call left, and the session itself only gains the reply. *)
Theorem updateLogConfig_effects
    (data : string) (msg : IncomingMessage) (c : Client) (d : Driver) :
  JSON_parse data = Some msg ->
  command msg = ServerCommand.updateLogConfig ->
  ServerCommand.updateLogConfig <> ServerCommand.initialize ->
  ServerCommand.updateLogConfig <> ServerCommand.setApiSchema ->
  ServerCommand.updateLogConfig <> ServerCommand.startListening ->
  let outcome := Driver_updateLogConfig d (config msg) in
  let reply :=
    match outcome.1 with
    | Normal _ => ResultSuccess (messageId msg) (Json (JObj []))
    | Throw e => error_reply (messageId msg) e
    end in
  receiveMessage data (c, d) = (Normal tt, (sendData reply false c, outcome.2)).
Proof.
  intros Hparse Hc N1 N2 N3. apply String.eqb_neq in N1, N2, N3.
  cbv zeta. unfold receiveMessage. rewrite Hparse.
  unfold try_catch, dispatch. rewrite Hc, N1, N2, N3, String.eqb_refl.
  unfold mbind, M_bind, bind, call, self. cbn [fst snd].
  destruct (Driver_updateLogConfig d (config msg)) as [[[]|e] d1]; cbn [fst snd].
  - reflexivity.
  - apply report_sends_error_reply.
Qed.

(** X8.  [getLogConfig] only reads: the shared controller is untouched and the
    reply carries the log configuration dumped for the session's schema
    version, or the error reply if the dump threw. *)
Theorem getLogConfig_reads_only
    (data : string) (msg : IncomingMessage) (c : Client) (d : Driver) :
  JSON_parse data = Some msg ->
  command msg = ServerCommand.getLogConfig ->
  ServerCommand.getLogConfig <> ServerCommand.initialize ->
  ServerCommand.getLogConfig <> ServerCommand.setApiSchema ->
  ServerCommand.getLogConfig <> ServerCommand.startListening ->
  ServerCommand.getLogConfig <> ServerCommand.updateLogConfig ->
  let reply :=
    match dumpLogConfig d (schemaVersion c) with
    | Normal cfg => ResultSuccess (messageId msg) (Json (JObj [("config", cfg)]))
    | Throw e => error_reply (messageId msg) e
    end in
  receiveMessage data (c, d) = (Normal tt, (sendData reply false c, d)).
Proof.
  intros Hparse Hc N1 N2 N3 N4. apply String.eqb_neq in N1, N2, N3, N4.
  cbv zeta. unfold receiveMessage. rewrite Hparse.
  unfold try_catch, dispatch. rewrite Hc, N1, N2, N3, N4, String.eqb_refl.
  unfold mbind, M_bind, bind, this, ask, self. cbn [fst snd].
  destruct (dumpLogConfig d (schemaVersion c)) as [cfg|e].
  - reflexivity.
  - apply report_sends_error_reply.
Qed.

(** X9.  If the state dump throws, [startListening] is answered with the error
    reply, uncompressed, and event delivery is not switched on. *)
Theorem startListening_failure_keeps_flag
    (data : string) (msg : IncomingMessage) (c : Client) (d : Driver) (e : Thrown) :
  JSON_parse data = Some msg ->
  command msg = ServerCommand.startListening ->
  ServerCommand.startListening <> ServerCommand.initialize ->
  ServerCommand.startListening <> ServerCommand.setApiSchema ->
  dumpState d (schemaVersion c) = Throw e ->
  receiveMessage data (c, d)
    = (Normal tt, (sendData (error_reply (messageId msg) e) false c, d)) /\
  receiveEvents (receiveMessage data (c, d)).2.1 = receiveEvents c.
Proof.
  intros Hparse Hc N1 N2 Hdump. apply String.eqb_neq in N1, N2.
  assert (receiveMessage data (c, d)
          = (Normal tt, (sendData (error_reply (messageId msg) e) false c, d))) as Hrun.
  { unfold receiveMessage. rewrite Hparse.
    unfold try_catch, dispatch. rewrite Hc, N1, N2, String.eqb_refl.
    unfold mbind, M_bind, bind, this, ask, self. cbn [fst snd].
    rewrite Hdump. apply report_sends_error_reply. }
  split; [exact Hrun|]. rewrite Hrun. reflexivity.
Qed.

(** X10.  With pairwise distinct [Instance] values, each namespace is routed to
    its own handler family. *)
Theorem instanceHandlers_routes :
  NoDup Instance.values ->
  instanceHandlers_get Instance.controller = OwnHandler ControllerMessageHandler /\
  instanceHandlers_get Instance.driver = OwnHandler DriverMessageHandler /\
  instanceHandlers_get Instance.node = OwnHandler NodeMessageHandler /\
  instanceHandlers_get Instance.multicast_group = OwnHandler MulticastGroupMessageHandler /\
  instanceHandlers_get Instance.broadcast_node = OwnHandler BroadcastNodeMessageHandler /\
  instanceHandlers_get Instance.endpoint = OwnHandler EndpointMessageHandler /\
  instanceHandlers_get Instance.utils = OwnHandler UtilsMessageHandler.
Proof.
  unfold Instance.values. intros Hnd.
  repeat match goal with
  | Hn : NoDup (_ :: _) |- _ =>
      apply NoDup_cons in Hn as [? Hn]
  end.
  repeat match goal with
  | Hn : _ ∉ _ :: _ |- _ => apply not_elem_of_cons in Hn as [? Hn]
  end.
  unfold instanceHandlers_get, instanceHandlers.
  repeat split.
  all: repeat (first [rewrite lookup_insert_eq; reflexivity
                     | rewrite lookup_insert_ne by congruence]).
Qed.


(** Handling any frame only adds to the session's journal. *)
Lemma receiveMessage_journal_extends (data : string) (c : Client) (d : Driver) :
  exists l, journal (receiveMessage data (c, d)).2.1 = journal c ++ l.
Proof.
  unfold receiveMessage. destruct (JSON_parse data) as [msg|].
  - pose proof (dispatch_effects msg c d) as He. unfold try_catch.
    destruct (dispatch msg (c, d)) as [[[]|e] [c1 d1]]; simpl.
    + destruct He as (b & a & r & z & Hj & _). eauto.
    + destruct He as (b & Hj & _). rewrite report_sends_error_reply. simpl.
      rewrite Hj, <- app_assoc. eauto.
  - unfold self. simpl. eauto.
Qed.

End SessionFrame.

(** * Further properties of the registry *)

Lemma filter_all_true {A : Type} (f : A -> bool) (l : list A) :
  List.filter f (List.filter f l) = List.filter f l.
Proof.
  induction l as [|x l IH]; simpl; [reflexivity|].
  destruct (f x) eqn:Hx; simpl; rewrite ?Hx, IH; reflexivity.
Qed.



Lemma Forall_List_filter {A : Type} (P : A -> Prop) (f : A -> bool) (l : list A) :
  Forall P l -> Forall P (List.filter f l).
Proof.
  induction 1 as [|x l Hx Hl IH]; simpl; [constructor|].
  destruct (f x); [constructor; assumption | assumption].
Qed.


Lemma cleanupLoggingEventForwarder_idempotent (cc : ClientsController.t) :
  ClientsController.cleanupLoggingEventForwarder
    (ClientsController.cleanupLoggingEventForwarder cc)
  = ClientsController.cleanupLoggingEventForwarder cc.
Proof.
  pose proof (cleanupLoggingEventForwarder_started
                (ClientsController.cleanupLoggingEventForwarder cc)) as Hs.
  rewrite cleanupLoggingEventForwarder_started in Hs.
  unfold ClientsController.cleanupLoggingEventForwarder at 1.
  unfold ClientsController.logListeners in *.
  rewrite cleanupLoggingEventForwarder_clients in *.
  destruct (Nat.eqb _ 0) eqn:Hn; simpl; [|reflexivity].
  rewrite cleanupLoggingEventForwarder_started.
  unfold ClientsController.logListeners. rewrite Hn. simpl.
  rewrite andb_false_r. reflexivity.
Qed.

(** X14.  A cleanup pass is idempotent, and it leaves the same registry as the
    heartbeat callback does; unlike the heartbeat it also clears the
    scheduling flag, and it leaves the timer and the event forwarder
    alone. *)
Theorem cleanupClients_idempotent (cc : ClientsController.t) :
  ClientsController.cleanupClients (ClientsController.cleanupClients cc)
    = ClientsController.cleanupClients cc /\
  ClientsController.clients (ClientsController.cleanupClients cc)
    = ClientsController.clients (ClientsController.pingInterval_callback cc).1 /\
  ClientsController.cleanupScheduled (ClientsController.cleanupClients cc) = false /\
  ClientsController.pingInterval (ClientsController.cleanupClients cc)
    = ClientsController.pingInterval cc /\
  ClientsController.eventForwarder (ClientsController.cleanupClients cc)
    = ClientsController.eventForwarder cc.
Proof.
  split; [|split; [|split; [|split]]].
  - unfold ClientsController.cleanupClients at 1 2.
    set (cc1 := ClientsController.set_clients _ (ClientsController.set_cleanupScheduled false cc)).
    assert (ClientsController.set_clients
              (List.filter isConnected
                 (ClientsController.clients
                    (ClientsController.set_cleanupScheduled false
                       (ClientsController.cleanupLoggingEventForwarder cc1))))
              (ClientsController.set_cleanupScheduled false
                 (ClientsController.cleanupLoggingEventForwarder cc1))
            = ClientsController.cleanupLoggingEventForwarder cc1) as ->.
    { unfold ClientsController.cleanupLoggingEventForwarder.
      destruct (_ && _); unfold cc1; simpl; rewrite filter_all_true; reflexivity. }
    apply cleanupLoggingEventForwarder_idempotent.
  - unfold ClientsController.cleanupClients.
    rewrite cleanupLoggingEventForwarder_clients, pingInterval_callback_spec. reflexivity.
  - unfold ClientsController.cleanupClients.
    rewrite cleanupLoggingEventForwarder_cleanupScheduled. reflexivity.
  - unfold ClientsController.cleanupClients, ClientsController.cleanupLoggingEventForwarder.
    destruct (_ && _); reflexivity.
  - unfold ClientsController.cleanupClients, ClientsController.cleanupLoggingEventForwarder.
    destruct (_ && _); reflexivity.
Qed.

(** X15.  Full teardown of the registry: every registered session is told to
    disconnect and none stays connected, the registry is empty, the
    heartbeat timer is cleared and the logging forwarder is not running; a
    pending cleanup flag and the event forwarder are left as they are, and
    tearing down again changes nothing. *)
Theorem disconnect_tears_down (cc : ClientsController.t) :
  let cc' := (ClientsController.disconnect cc).1 in
  let closed := (ClientsController.disconnect cc).2 in
  closed = map disconnect (ClientsController.clients cc) /\
  Forall (fun c => isConnected c = false) closed /\
  ClientsController.clients cc' = [] /\
  ClientsController.pingInterval cc' = false /\
  ClientsController.loggingEventForwarderStarted cc' = false /\
  ClientsController.cleanupScheduled cc' = ClientsController.cleanupScheduled cc /\
  ClientsController.eventForwarder cc' = ClientsController.eventForwarder cc /\
  ClientsController.disconnect cc' = (cc', []).
Proof.
  cbv zeta. split; [reflexivity|]. split.
  { apply List.Forall_forall. intros c Hin. unfold ClientsController.disconnect in Hin.
    simpl in Hin. apply in_map_iff in Hin as (c0 & <- & _).
    apply disconnect_not_connected. }
  unfold ClientsController.disconnect, ClientsController.cleanupLoggingEventForwarder,
    ClientsController.loggingEventForwarderStarted, ClientsController.logListeners.
  destruct cc as [cl pi ef cs [[[] f]|]]; simpl; repeat split.
Qed.

(** X16.  [configureLoggingEventForwarder] makes sure the forwarder exists and
    runs.  A forwarder that is already running is left alone, so the
    filter of a later call is ignored until the forwarder has been
    stopped; a missing or stopped one is started with the given filter.
    Nothing else in the controller changes. *)
Theorem configureLoggingEventForwarder_starts_once
    (f : option JSONValue) (cc : ClientsController.t) :
  let cc' := ClientsController.configureLoggingEventForwarder f cc in
  ClientsController.loggingEventForwarderStarted cc' = true /\
  (ClientsController.loggingEventForwarderStarted cc = true -> cc' = cc) /\
  (ClientsController.loggingEventForwarderStarted cc = false ->
     ClientsController.loggingEventForwarder cc'
       = Some {| started := true; contextFilter := f |}) /\
  ClientsController.clients cc' = ClientsController.clients cc /\
  ClientsController.cleanupScheduled cc' = ClientsController.cleanupScheduled cc /\
  (forall g, ClientsController.configureLoggingEventForwarder g cc' = cc').
Proof.
  cbv zeta.
  unfold ClientsController.configureLoggingEventForwarder,
    ClientsController.loggingEventForwarderStarted.
  destruct cc as [cl pi ef cs [[[] g0]|]]; simpl; repeat split; auto; discriminate.
Qed.

Section RegistryInvariants.
Context `{ServerCommand.t} `{Instance.t} `{Constants} `{Collaborators}.

Lemma callbacks_keep (P : Client -> Prop) (l : list Callback) (w : World) :
  Forall P (ClientsController.clients (sockets w)) ->
  Forall P (ClientsController.clients (sockets (foldl run_callback w l))).
Proof.
  revert w. induction l as [|[] l IH]; intros w Hw; simpl; [exact Hw|].
  apply IH. simpl. unfold ClientsController.cleanupClients.
  rewrite cleanupLoggingEventForwarder_clients. simpl.
  apply Forall_List_filter, Hw.
Qed.

Lemma callbacks_keep_timer (l : list Callback) (w : World) :
  ClientsController.pingInterval (sockets (foldl run_callback w l))
    = ClientsController.pingInterval (sockets w) /\
  ClientsController.eventForwarder (sockets (foldl run_callback w l))
    = ClientsController.eventForwarder (sockets w) /\
  (ClientsController.clients (sockets w) = [] ->
   ClientsController.clients (sockets (foldl run_callback w l)) = []).
Proof.
  revert w. induction l as [|[] l IH]; intros w; simpl; [auto|].
  destruct (IH (with_sockets ClientsController.cleanupClients w)) as (-> & -> & Hc).
  simpl. split; [|split].
  { unfold ClientsController.cleanupClients, ClientsController.cleanupLoggingEventForwarder.
    destruct (_ && _); reflexivity. }
  { unfold ClientsController.cleanupClients, ClientsController.cleanupLoggingEventForwarder.
    destruct (_ && _); reflexivity. }
  intros Hnil. apply Hc. simpl. unfold ClientsController.cleanupClients.
  rewrite cleanupLoggingEventForwarder_clients. simpl. rewrite Hnil. reflexivity.
Qed.

(** X19.  The heartbeat timer and the event forwarder are created with the
    first session and then stay: in every state the gateway can reach,
    either both exist (and the forwarder is subscribed), or no socket was
    ever accepted and the registry is empty.  In particular they survive
    the registry becoming empty again. *)
Theorem reachable_timer_and_forwarder (w : World) :
  reachable w ->
  (ClientsController.pingInterval (sockets w) = true /\
   ClientsController.eventForwarder (sockets w) = Some {| subscribed := true |}) \/
  (ClientsController.pingInterval (sockets w) = false /\
   ClientsController.eventForwarder (sockets w) = None /\
   ClientsController.clients (sockets w) = []).
Proof.
  induction 1 as [d|w s _ IH|w i data _ IH|w e _ IH|w i _ IH|w _ IH|w _ IH].
  - right. auto.
  - left. unfold addSocket.
    destruct (sockets w) as [cl pi ef cs lf]. simpl in *.
    destruct IH as [[Hp He]|(Hp & He & _)]; subst; simpl; auto.
  - unfold on_message.
    destruct (ClientsController.clients (sockets w) !! i) as [c|] eqn:Hi; [|exact IH].
    destruct (receiveMessage data (c, shared w)) as [r [c' d']]. simpl.
    destruct IH as [IH|(Hp & He & Hc)]; [left; exact IH|].
    rewrite Hc in Hi. discriminate.
  - unfold forwardEvent. simpl.
    destruct IH as [IH|(Hp & He & Hc)]; [left; exact IH|].
    right. rewrite Hc. auto.
  - unfold close_notification, on_close, scheduleClientCleanup, transport_closed. simpl.
    destruct (ClientsController.cleanupScheduled (sockets w)); simpl;
      (destruct IH as [IH|(Hp & He & Hc)]; [left; exact IH|]);
      right; rewrite Hc; auto.
  - unfold heartbeat_tick. simpl. rewrite pingInterval_callback_spec. simpl.
    destruct IH as [IH|(Hp & He & Hc)]; [left; exact IH|].
    right. rewrite Hc. auto.
  - unfold run_timeouts.
    destruct (callbacks_keep_timer (timeouts w)
                {| sockets := sockets w; shared := shared w; timeouts := [] |})
      as (Hp & He & Hc). simpl in *.
    rewrite Hp, He.
    destruct IH as [IH|(Hp' & He' & Hc')]; [left; exact IH|].
    right. auto.
Qed.

End RegistryInvariants.

(** * Further properties of the message surface *)

(** X20.  The [command] of a controller message settles its interface, with two
    exceptions: every command is admitted by exactly one member of the
    union, except [beginInclusion] and [replaceFailedNode], which are
    admitted by two (the current and the legacy shape); and every member
    admits exactly one command, except the two that admit a renamed
    command under both spellings. *)
Theorem controller_command_settles_interface :
  (forall cmd,
     cmd <> ControllerCommand.beginInclusion ->
     cmd <> ControllerCommand.replaceFailedNode ->
     exists i, interfaces_accepting cmd = [i]) /\
  interfaces_accepting ControllerCommand.beginInclusion
    = [IncomingCommandControllerBeginInclusion;
       IncomingCommandControllerBeginInclusionLegacy] /\
  interfaces_accepting ControllerCommand.replaceFailedNode
    = [IncomingCommandControllerReplaceFailedNode;
       IncomingCommandControllerReplaceFailedNodeLegacy] /\
  (forall i,
     i <> IncomingCommandControllerRemoveNodeFromAllAssociations ->
     i <> IncomingCommandControllerIsAnyOTAFirmwareUpdateInProgress ->
     length (command_type i) = 1%nat) /\
  (forall i, In i IncomingMessageController /\
             Forall (fun cmd => In i (interfaces_accepting cmd)) (command_type i)).
Proof.
  split; [|split; [|split; [|split]]].
  - intros cmd H1 H2. destruct cmd; try contradiction; eexists; reflexivity.
  - reflexivity.
  - reflexivity.
  - intros i H1 H2. destruct i; try contradiction; reflexivity.
  - intros i. split.
    + destruct i; vm_compute; tauto.
    + destruct i; repeat (constructor; [vm_compute; tauto|]); constructor.
Qed.

(** X21.  The [command] of a node message settles its interface: every command
    is admitted by exactly one member of the union, every member admits
    one command except the one that admits both spellings of the
    firmware-update-in-progress query, and every member requires
    [nodeId]. *)
Theorem node_command_settles_interface :
  (forall cmd, length (node_interfaces_accepting cmd) = 1%nat) /\
  (forall i,
     In i IncomingMessageNode /\
     Forall (fun cmd => node_interfaces_accepting cmd = [i]) (node_command_type i) /\
     In ("nodeId", false) (node_properties i)) /\
  node_command_type IncomingCommandIsFirmwareUpdateInProgress
    = [NodeCommand.isFirmwareUpdateInProgress; NodeCommand.getFirmwareUpdateProgress] /\
  (forall i, i <> IncomingCommandIsFirmwareUpdateInProgress ->
     length (node_command_type i) = 1%nat).
Proof.
  split; [|split; [|split]].
  - intros cmd. destruct cmd; vm_compute; reflexivity.
  - intros i. split; [|split].
    + destruct i; vm_compute; tauto.
    + destruct i; repeat constructor.
    + left. reflexivity.
  - reflexivity.
  - intros i Hi. destruct i; try reflexivity. contradiction.
Qed.

(** * Properties of the gateway lifecycle *)

(** X22.  The endpoint [start] listens on: a missing port and port 0 both give
    3000, a missing host and the empty host both give 0.0.0.0, anything
    else is taken as given; so the port asked of the operating system is
    never 0 and the host never empty. *)
Theorem effective_endpoint_fallback (o : ZwavejsServer.ZwavejsServerOptions) :
  ZwavejsServer.effective_port o <> 0 /\
  ZwavejsServer.effective_host o <> "" /\
  (ZwavejsServer.port o = None \/ ZwavejsServer.port o = Some 0 ->
     ZwavejsServer.effective_port o = 3000) /\
  (forall p, ZwavejsServer.port o = Some p -> p <> 0 ->
     ZwavejsServer.effective_port o = p) /\
  (ZwavejsServer.host o = None \/ ZwavejsServer.host o = Some "" ->
     ZwavejsServer.effective_host o = "0.0.0.0") /\
  (forall h, ZwavejsServer.host o = Some h -> h <> "" ->
     ZwavejsServer.effective_host o = h).
Proof.
  unfold ZwavejsServer.effective_port, ZwavejsServer.effective_host,
    ZwavejsServer.defaultPort, ZwavejsServer.defaultHost.
  destruct o as [[p|] [h|] dns]; simpl.
  all: repeat split.
  all: try (destruct (Z.eqb_spec p 0)).
  all: try (destruct (String.eqb_spec h "")).
  all: try discriminate; try lia; try congruence.
  all: try (intros [Hn|Hn]; congruence).
  all: try (intros q [= <-] Hq; congruence).
Qed.

Section LifecycleProperties.
Context `{Constants} `{Collaborators} `{!Lifecycle}.

(** X23.  When [start] returns, the driver was ready and the server listens on
    the effective endpoint, which is a valid port the system granted; the
    registry is a fresh, empty one, [listening] has been emitted once, and
    with service discovery on the service is advertised under the home id
    on the listening port. *)
Theorem start_returns_listening
    (s s' : ZwavejsServer.t) (d d' : Driver) :
  ZwavejsServer.start s d = (Normal tt, (s', d')) ->
  let p := ZwavejsServer.effective_port (ZwavejsServer.options s) in
  let h := ZwavejsServer.effective_host (ZwavejsServer.options s) in
  Driver_ready d = true /\
  ZwavejsServer.valid_port p = true /\
  listens h p = true /\
  d' = Driver_updateUserAgent d applicationName version /\
  ZwavejsServer.server s' = Some {| ZwavejsServer.listening := Some (h, p) |} /\
  ZwavejsServer.wsServer s' = true /\
  ZwavejsServer.sockets s' = Some ClientsController.new /\
  ZwavejsServer.emitted s' = ZwavejsServer.emitted s ++ ["listening"] /\
  match ZwavejsServer.enableDNSServiceDiscovery (ZwavejsServer.options s) with
  | Some true =>
      ZwavejsServer.responder s' = true /\
      exists homeId,
        Driver_homeId d' = Some homeId /\
        ZwavejsServer.service s'
          = Some {| ZwavejsServer.service_homeId := homeId;
                    ZwavejsServer.service_port := p |}
  | _ =>
      ZwavejsServer.responder s' = ZwavejsServer.responder s /\
      ZwavejsServer.service s' = ZwavejsServer.service s
  end.
Proof.
  unfold ZwavejsServer.start. cbv zeta.
  destruct (Driver_ready d); simpl; [|discriminate].
  destruct (ZwavejsServer.valid_port _); simpl; [|discriminate].
  destruct (listens _ _); simpl; [|discriminate].
  destruct (ZwavejsServer.enableDNSServiceDiscovery (ZwavejsServer.options s))
    as [[]|]; simpl.
  - destruct (Driver_homeId _) as [homeId|] eqn:Hh; [|discriminate].
    intros [= <- <-]. simpl. repeat split; eauto.
  - intros [= <- <-]. simpl. repeat split.
  - intros [= <- <-]. simpl. repeat split.
Qed.

(** X24.  When [start] throws because the driver is not ready, nothing has
    happened.  When it throws for any other reason, the HTTP server, the
    WebSocket server and a registry have already been created, and
    [destroy] releases them. *)
Theorem start_failure
    (s s' : ZwavejsServer.t) (d d' : Driver) (e : Thrown) :
  ZwavejsServer.start s d = (Throw e, (s', d')) ->
  (Driver_ready d = false /\ s' = s /\ d' = d) \/
  (Driver_ready d = true /\
   ZwavejsServer.server s' <> None /\
   ZwavejsServer.wsServer s' = true /\
   ZwavejsServer.sockets s' = Some ClientsController.new /\
   [ZwavejsServer.DisconnectSessions []; ZwavejsServer.CloseWsServer;
    ZwavejsServer.CloseServer]
     `prefix_of` (ZwavejsServer.destroy s').2).
Proof.
  unfold ZwavejsServer.start.
  destruct (Driver_ready d); simpl.
  - intros Hrun. right. split; [reflexivity|].
    assert (ZwavejsServer.server s' <> None /\
            ZwavejsServer.wsServer s' = true /\
            ZwavejsServer.sockets s' = Some ClientsController.new) as (Hs & Hw & Hc).
    { revert Hrun.
      destruct (ZwavejsServer.valid_port _); simpl; [|intros [= <- <- <-]; simpl; auto].
      destruct (listens _ _); simpl; [|intros [= <- <- <-]; simpl; auto].
      destruct (ZwavejsServer.enableDNSServiceDiscovery (ZwavejsServer.options s))
        as [[]|]; simpl; try discriminate.
      destruct (Driver_homeId _); [discriminate|].
      intros [= <- <- <-]. simpl. auto. }
    split; [exact Hs|]. split; [exact Hw|]. split; [exact Hc|].
    unfold ZwavejsServer.destroy.
    destruct s' as [o' dr' [srv|] ws' cc' [] [svc|] em']; simpl in *; subst;
      try congruence; simpl; eexists; reflexivity.
  - intros [= <- <- <-]. left. auto.
Qed.

End LifecycleProperties.

(** X25.  [destroy] releases whatever is held and nothing else: afterwards no
    resource is left while the options and the events emitted are as
    before; the steps come in the fixed order sessions, WebSocket server,
    HTTP server, service, responder, each at most once; the sessions of the
    registry are all told to disconnect; nothing is done exactly when
    nothing was held, so a second [destroy] does nothing. *)
Theorem destroy_releases_everything (s : ZwavejsServer.t) :
  let s' := (ZwavejsServer.destroy s).1 in
  let steps := (ZwavejsServer.destroy s).2 in
  ZwavejsServer.released s' /\
  ZwavejsServer.options s' = ZwavejsServer.options s /\
  ZwavejsServer.emitted s' = ZwavejsServer.emitted s /\
  StronglySorted lt (map ZwavejsServer.teardown_rank steps) /\
  (forall cc, ZwavejsServer.sockets s = Some cc ->
     In (ZwavejsServer.DisconnectSessions (map disconnect (ClientsController.clients cc)))
        steps) /\
  (steps = [] <-> ZwavejsServer.released s) /\
  ZwavejsServer.destroy s' = (s', []).
Proof.
  cbv zeta. unfold ZwavejsServer.released, ZwavejsServer.destroy.
  destruct s as [o dr [srv|] [] [cc|] [] [svc|] em]; simpl.
  all: split; [tauto|]; split; [reflexivity|]; split; [reflexivity|].
  all: split; [repeat (constructor; try lia)|].
  all: split; [intros cc0 [= <-] || intros cc0 [=]; simpl; tauto|].
  all: split; [|reflexivity].
  all: split; [discriminate || tauto | intros (? & ? & ? & ? & ?); try discriminate; reflexivity].
Qed.

(** ** The further properties at work on the concrete gateway *)

Lemma acknowledged_probes_keep_session_witness :
  _outstandingPing fresh = false /\
  isConnected (Nat.iter 3 acknowledged_probe fresh) = true /\
  pings (Nat.iter 3 acknowledged_probe fresh) = 3%nat.
Proof.
  split; [reflexivity|].
  destruct (acknowledged_probes_keep_session 3 fresh eq_refl)
    as (Hs & _ & Hp & _).
  split; [|exact Hp]. unfold isConnected. rewrite Hs. reflexivity.
Defined.

Lemma split_dot_first_namespace_witness :
  dotless "node" /\ split_dot_first ("node" +:+ String dot "set_value") = "node".
Proof.
  assert (dotless "node") as Hd.
  { unfold dotless. simpl. intros [Hx|[Hx|[Hx|[Hx|[]]]]]; discriminate. }
  split; [exact Hd|].
  exact (proj1 (split_dot_first_namespace "node" "set_value" Hd)).
Defined.

Lemma updateLogConfig_effects_witness :
  receiveMessage (frame "5" "updateLogConfig" "") (fresh, controller0)
  = (Normal tt,
     (sendData (ResultSuccess "5" (Json (JObj []))) false fresh,
      JObj [("level", JStr "debug")])).
Proof.
  apply (updateLogConfig_effects (frame "5" "updateLogConfig" "")
           (message "5" "updateLogConfig" 0) fresh controller0);
    first [reflexivity | discriminate].
Defined.

Lemma getLogConfig_reads_only_witness :
  @receiveMessage commands instances constants unready
    (frame "8" "getLogConfig" "") (fresh, JNull)
  = (Normal tt,
     (sendData (ResultSuccess "8" (Json (JObj [("config", JNull)]))) false fresh, JNull)).
Proof.
  apply (@getLogConfig_reads_only commands instances constants unready
           (frame "8" "getLogConfig" "") (message "8" "getLogConfig" 0) fresh JNull);
    first [reflexivity | discriminate].
Defined.

Lemma startListening_failure_keeps_flag_witness :
  @receiveMessage commands instances constants unready
    (frame "2" "startListening" "") (fresh, JNull)
  = (Normal tt,
     (sendData (ResultZWaveError "2" 5 "The driver is not ready") false fresh, JNull)).
Proof.
  apply (@startListening_failure_keeps_flag commands instances constants unready
           (frame "2" "startListening" "") (message "2" "startListening" 0) fresh JNull
           (ZWaveError 5 "The driver is not ready"));
    first [reflexivity | discriminate].
Defined.

Lemma instanceHandlers_routes_witness :
  NoDup Instance.values /\
  instanceHandlers_get "node" = OwnHandler NodeMessageHandler.
Proof.
  assert (NoDup Instance.values) as Hnd.
  { unfold Instance.values.
    repeat (apply NoDup_cons_2;
            [rewrite ?not_elem_of_cons; repeat split; try discriminate;
             apply not_elem_of_nil|]).
    apply NoDup_nil_2. }
  split; [exact Hnd|].
  destruct (instanceHandlers_routes Hnd) as (_ & _ & Hn & _). exact Hn.
Defined.


Lemma unknown_namespace_reply_witness :
  receiveMessage (frame "6" "bogus.doThing" "") (fresh, controller0)
  = (Normal tt,
     (sendResultError "6" ErrorCode.unknownCommand
        (JObj [("command", JStr "bogus.doThing")]) fresh, controller0)).
Proof.
  apply (unknown_namespace_reply (frame "6" "bogus.doThing" "")
           (message "6" "bogus.doThing" 0) fresh controller0).
  - reflexivity.
  - unfold ServerCommand.values. rewrite !not_elem_of_cons.
    repeat split; try discriminate. apply not_elem_of_nil.
  - unfold Instance.values. rewrite !not_elem_of_cons.
    repeat split; try discriminate. apply not_elem_of_nil.
  - reflexivity.
Defined.

Lemma reachable_one_client : reachable one_client.
Proof. apply reach_addSocket, reach_start. Defined.

Lemma reachable_coalesced_witness :
  reachable (close_notification one_client 0) /\
  timeouts (close_notification one_client 0) = [CleanupClients].
Proof.
  assert (reachable (close_notification one_client 0)) as Hr.
  { apply reach_close, reachable_one_client. }
  split; [exact Hr|].
  exact (reachable_coalesced _ Hr).
Defined.

Lemma reachable_timer_and_forwarder_witness :
  reachable (run_timeouts (close_notification one_client 0)) /\
  ClientsController.clients (sockets (run_timeouts (close_notification one_client 0))) = [] /\
  ClientsController.pingInterval (sockets (run_timeouts (close_notification one_client 0)))
    = true.
Proof.
  assert (reachable (run_timeouts (close_notification one_client 0))) as Hr.
  { apply reach_timeouts, reach_close, reachable_one_client. }
  split; [exact Hr|]. split; [reflexivity|].
  destruct (reachable_timer_and_forwarder _ Hr) as [[Hp _]|[Hp _]];
    [exact Hp | discriminate Hp].
Defined.

Lemma start_returns_listening_witness :
  let s := ZwavejsServer.new
             {| ZwavejsServer.port := Some 0;
                ZwavejsServer.host := None;
                ZwavejsServer.enableDNSServiceDiscovery := Some true |} false in
  exists s',
    ZwavejsServer.start s controller0 = (Normal tt, (s', controller0)) /\
    ZwavejsServer.server s'
      = Some {| ZwavejsServer.listening := Some ("0.0.0.0", 3000) |} /\
    ZwavejsServer.emitted s' = ["listening"].
Proof.
  intros s.
  assert (ZwavejsServer.start s controller0
          = (Normal tt, ((ZwavejsServer.start s controller0).2.1, controller0))) as Hrun
    by reflexivity.
  destruct (start_returns_listening _ _ _ _ Hrun)
    as (_ & _ & _ & _ & Hs & _ & _ & He & _).
  exists (ZwavejsServer.start s controller0).2.1.
  split; [exact Hrun|]. split; [exact Hs | exact He].
Defined.

Lemma start_failure_witness :
  let s := ZwavejsServer.new
             {| ZwavejsServer.port := Some 80;
                ZwavejsServer.host := Some "localhost";
                ZwavejsServer.enableDNSServiceDiscovery := None |} false in
  (exists e, ZwavejsServer.start s (JNull : Driver) = (Throw e, (s, JNull : Driver))) /\
  (exists e s',
     ZwavejsServer.start s controller0 = (Throw e, (s', controller0)) /\
     ZwavejsServer.sockets s' = Some ClientsController.new /\
     ZwavejsServer.released (ZwavejsServer.destroy s').1).
Proof.
  intros s. split.
  - eexists. reflexivity.
  - assert (ZwavejsServer.start s controller0
            = (Throw (OtherError "listen"),
               ((ZwavejsServer.start s controller0).2.1, controller0))) as Hrun
      by reflexivity.
    destruct (start_failure _ _ _ _ _ Hrun) as [(Hr & _)|(_ & _ & _ & Hc & _)];
      [discriminate Hr|].
    exists (OtherError "listen"), (ZwavejsServer.start s controller0).2.1.
    split; [exact Hrun|]. split; [exact Hc|].
    unfold ZwavejsServer.released. simpl. repeat split.
Defined.

(** * Properties of the session on unvalidated frames *)

Section UntypedProperties.
Context `{ServerCommand.t} `{Instance.t} `{Constants} `{Untyped.Collaborators}.

Lemma not_builtin (text : string) :
  bool_decide (text ∈ ServerCommand.values) = false ->
  (text =? ServerCommand.initialize)%string = false /\
  (text =? ServerCommand.setApiSchema)%string = false /\
  (text =? ServerCommand.startListening)%string = false /\
  (text =? ServerCommand.updateLogConfig)%string = false /\
  (text =? ServerCommand.getLogConfig)%string = false.
Proof.
  unfold ServerCommand.values. intros Hn. apply bool_decide_eq_false in Hn.
  repeat split; apply String.eqb_neq; intros ->; apply Hn; set_solver.
Qed.

Lemma builtin (text : string) :
  bool_decide (text ∈ ServerCommand.values) = true ->
  (text =? ServerCommand.initialize)%string
  || (text =? ServerCommand.setApiSchema)%string
  || (text =? ServerCommand.startListening)%string
  || (text =? ServerCommand.updateLogConfig)%string
  || (text =? ServerCommand.getLogConfig)%string = true.
Proof.
  unfold ServerCommand.values. intros Hn. apply bool_decide_eq_true in Hn.
  repeat (apply elem_of_cons in Hn as [->|Hn]);
    rewrite ?String.eqb_refl, ?orb_true_r; try reflexivity.
  inversion Hn.
Qed.

Lemma instanceHandlers_get_own (instance : string) :
  instanceHandlers_get instance
  = match instanceHandlers !! instance with
    | Some h => OwnHandler h
    | None => match assoc instance Object_prototype with
              | Some m => Inherited m
              | None => NoProperty
              end
    end.
Proof. reflexivity. Qed.

Ltac untyped_unfold :=
  unfold Untyped.receiveMessage, Untyped.try_catch, Untyped.dispatch, Untyped.report,
    Untyped.setSchemaVersion, Untyped.call_property,
    mbind, Untyped.M_bind, Untyped.bind, Untyped.lift, Untyped.self, Untyped.this,
    Untyped.ask, Untyped.call, Untyped.throw, Untyped.ret,
    Untyped.session, Untyped.registry, Untyped.driver.

Ltac untyped_sent :=
  unfold Untyped.sent, Untyped.pings, Untyped.sendResultSuccess, Untyped.sendResultError,
    Untyped.sendResultZWaveError, Untyped.sendData, Untyped.set_schemaVersion,
    Untyped.set_receiveEvents, Untyped.set_additionalUserAgentComponents,
    Untyped.socket_close, Untyped.record;
  simpl; rewrite ?omap_app, ?List.filter_app, ?length_app; simpl;
  rewrite <- ?app_assoc, ?Nat.add_0_r; simpl.

Ltac untyped_done :=
  repeat split; try reflexivity; try (untyped_sent; reflexivity); try tauto;
  try congruence;
  try (eexists _, _; split; [untyped_sent; reflexivity | split; reflexivity]).

Lemma receiveMessage_on_object (data : string) (members : list (string * JSONValue))
    (s : Untyped.Ctx) :
  Untyped.JSON_parse data = Some (JObj members) ->
  let b := Untyped.handled data s in
  let out := Untyped.receiveMessage data s in
  out.1 = Normal tt /\
  Untyped.registry out.2 = Untyped.registry b /\
  Untyped.socket (Untyped.session out.2) = Untyped.socket (Untyped.session b) /\
  Untyped.receiveLogs (Untyped.session out.2) = Untyped.receiveLogs (Untyped.session b) /\
  Untyped._outstandingPing (Untyped.session out.2)
    = Untyped._outstandingPing (Untyped.session b) /\
  Untyped.pings (Untyped.session out.2) = Untyped.pings (Untyped.session b) /\
  (exists reply z,
     Untyped.sent (Untyped.session out.2) = Untyped.sent (Untyped.session b) ++ [(reply, z)] /\
     Untyped.reply_to reply = Untyped.member "messageId" members /\
     Untyped.is_success reply
       = match (Untyped.dispatch (JObj members) s).1 with
         | Normal _ => true
         | Throw _ => false
         end) /\
  (Untyped.negotiates data = false ->
   Untyped.schemaVersion (Untyped.session out.2)
     = Untyped.schemaVersion (Untyped.session b)) /\
  (Untyped.is_string (Untyped.command_of data) ServerCommand.initialize = false ->
   Untyped.additionalUserAgentComponents (Untyped.session out.2)
     = Untyped.additionalUserAgentComponents (Untyped.session b)) /\
  (Untyped.is_string (Untyped.command_of data) ServerCommand.startListening = false ->
   Untyped.receiveEvents (Untyped.session out.2)
     = Untyped.receiveEvents (Untyped.session b)) /\
  (Untyped.receiveEvents (Untyped.session b) = true ->
   Untyped.receiveEvents (Untyped.session out.2) = true).
Proof.
  intros Hp. cbv zeta.
  unfold Untyped.handled, Untyped.delegated, Untyped.negotiates, Untyped.command_of.
  untyped_unfold. rewrite Hp.
  remember instanceHandlers_get as lookup eqn:Hl. simpl.
  destruct (Untyped.member "command" members) as [|[| | |text| |]] eqn:Hc; simpl;
    try solve [untyped_done].
  destruct (bool_decide (text ∈ ServerCommand.values)) eqn:Hb.
  - apply builtin in Hb.
    repeat case_match; simplify_eq/=;
      try (rewrite ?orb_false_l in Hb; congruence); untyped_done.
  - destruct (not_builtin text Hb) as (E1 & E2 & E3 & E4 & E5).
    rewrite E1, E2, E3, E4, E5. simpl. subst lookup.
    rewrite instanceHandlers_get_own.
    destruct (instanceHandlers !! split_dot_first text) as [h|] eqn:Hh.
    + simpl.
      destruct (Untyped.handle h (JObj members) s) as [[r|e] [[c1 r1] d1]]; simpl;
        [|destruct e; simpl]; untyped_done.
    + destruct (assoc (split_dot_first text) Object_prototype) as [m|]; simpl;
        [destruct (Untyped.call_inherited m (JObj members)) as [r|e]; simpl;
         [|destruct e; simpl]|]; untyped_done.
Qed.

Lemma receiveMessage_on_null (data : string) (s : Untyped.Ctx) :
  Untyped.JSON_parse data = Some JNull ->
  Untyped.receiveMessage data s = (Throw Untyped.TypeError, s)
  /\ Untyped.handled data s = s.
Proof.
  intros Hp. unfold Untyped.handled, Untyped.delegated. untyped_unfold.
  rewrite Hp. split; reflexivity.
Qed.

Lemma receiveMessage_on_scalar (data : string) (msg : JSONValue) (s : Untyped.Ctx) :
  Untyped.JSON_parse data = Some msg ->
  msg <> JNull ->
  (forall members, msg <> JObj members) ->
  Untyped.receiveMessage data s
  = (Normal tt,
     (Untyped.sendResultError Untyped.undefined ErrorCode.unknownError (JObj [])
        (Untyped.session s),
      Untyped.registry s, Untyped.driver s))
  /\ Untyped.dispatch msg s = (Throw Untyped.TypeError, s)
  /\ Untyped.handled data s = s
  /\ Untyped.command_of data = Untyped.undefined.
Proof.
  intros Hp Hn Ho.
  unfold Untyped.handled, Untyped.delegated, Untyped.command_of. untyped_unfold.
  rewrite Hp.
  destruct msg as [| | | | |members]; try congruence; repeat split; reflexivity.
Qed.

Lemma receiveMessage_unparsed (data : string) (s : Untyped.Ctx) :
  Untyped.JSON_parse data = None ->
  Untyped.receiveMessage data s
  = (Normal tt,
     (Untyped.socket_close (Untyped.session s), Untyped.registry s, Untyped.driver s))
  /\ Untyped.handled data s = s
  /\ Untyped.command_of data = Untyped.undefined.
Proof.
  intros Hp.
  unfold Untyped.handled, Untyped.delegated, Untyped.command_of. untyped_unfold.
  rewrite Hp. repeat split; reflexivity.
Qed.

(** C3.  On the code the claim holds of every parsed frame but one.  The
    frame [null] parses; [msg.command] throws inside the [try] block and
    the [catch] block throws again at [msg.messageId]: nothing is sent,
    nothing changes, and the exception leaves [receiveMessage].  A frame
    that parses to anything else is answered: [receiveMessage] returns
    and, after whatever the handler family did, its own code sends exactly
    one result message, addressed to [msg.messageId], which is the success
    reply exactly when the [try] block did not throw; the socket is left
    as it was. *)
Theorem null_frame_is_not_answered :
  (forall (data : string) (s : Untyped.Ctx),
     Untyped.JSON_parse data = Some JNull ->
     Untyped.receiveMessage data s = (Throw Untyped.TypeError, s)) /\
  (forall (data : string) (msg : JSONValue) (s : Untyped.Ctx),
     Untyped.JSON_parse data = Some msg ->
     msg <> JNull ->
     let b := Untyped.handled data s in
     let out := Untyped.receiveMessage data s in
     out.1 = Normal tt /\
     Untyped.socket (Untyped.session out.2) = Untyped.socket (Untyped.session b) /\
     exists reply z,
       Untyped.sent (Untyped.session out.2)
         = Untyped.sent (Untyped.session b) ++ [(reply, z)] /\
       Untyped.get msg "messageId" = Normal (Untyped.reply_to reply) /\
       Untyped.is_success reply
         = match (Untyped.dispatch msg s).1 with
           | Normal _ => true
           | Throw _ => false
           end).
Proof.
  split.
  - intros data s Hp. apply receiveMessage_on_null, Hp.
  - intros data msg s Hp Hn. cbv zeta.
    destruct msg as [|b|n|t|l|members]; [congruence| | | | |].
    5: { destruct (receiveMessage_on_object data members s Hp)
           as (Hr & _ & Hs & _ & _ & _ & (reply & z & Hsent & Hid & Hok) & _).
         split; [exact Hr|]. split; [exact Hs|].
         exists reply, z. simpl. rewrite Hid. auto. }
    all: match goal with
         | |- context [Untyped.get ?m _] =>
             destruct (receiveMessage_on_scalar data m s Hp) as (-> & -> & -> & _);
               [discriminate | discriminate |]
         end;
      split; [reflexivity|]; split; [reflexivity|];
      eexists _, _; split; [untyped_sent; reflexivity | split; reflexivity].
Qed.

(** The range check on a number and on a missing version: both
    comparisons with [undefined] are false. *)
Lemma out_of_range_number (n : Z) :
  Untyped.out_of_range (Untyped.json (JNum n))
  = Normal ((n <? minSchemaVersion) || (n >? maxSchemaVersion)).
Proof.
  unfold Untyped.out_of_range. simpl.
  destruct (n <? minSchemaVersion); reflexivity.
Qed.

Lemma out_of_range_undefined :
  Untyped.out_of_range Untyped.undefined = Normal false.
Proof. reflexivity. Qed.

Lemma untyped_range_check_spec (n : Z) :
  (n <? minSchemaVersion) || (n >? maxSchemaVersion) = false <-> Untyped.compatible n.
Proof. unfold Untyped.compatible. lia. Qed.

(** C1, as the code has it.  A negotiation command ([initialize] or
    [setApiSchema]) overwrites the stored [schemaVersion] with whatever the
    frame carries, because the assignment precedes the range check, and
    changes no other field but, when [initialize] is accepted, the client
    metadata.  If the frame carries a number outside
    [minSchemaVersion, maxSchemaVersion], the only reply is the
    schema-incompatibility error and the out-of-range number stays stored;
    if it carries a number inside, the only reply is the success result and
    the stored version is within the range.  A frame that carries no
    version passes the check, is answered with the success result and
    leaves [undefined] stored. *)
Theorem negotiation_stores_what_the_frame_carries
    (data : string) (members : list (string * JSONValue)) (s : Untyped.Ctx) :
  Untyped.JSON_parse data = Some (JObj members) ->
  Untyped.negotiates data = true ->
  let v := Untyped.member "schemaVersion" members in
  let id := Untyped.member "messageId" members in
  let c := Untyped.session s in
  let out := Untyped.receiveMessage data s in
  let c' := Untyped.session out.2 in
  out.1 = Normal tt /\
  Untyped.registry out.2 = Untyped.registry s /\
  Untyped.driver out.2 = Untyped.driver s /\
  Untyped.schemaVersion c' = v /\
  Untyped.receiveEvents c' = Untyped.receiveEvents c /\
  Untyped._outstandingPing c' = Untyped._outstandingPing c /\
  Untyped.receiveLogs c' = Untyped.receiveLogs c /\
  Untyped.socket c' = Untyped.socket c /\
  (forall n : Z, v = Untyped.json (JNum n) ->
     (~ Untyped.compatible n ->
        Untyped.sent c' = Untyped.sent c ++
          [(Untyped.ResultError id ErrorCode.schemaIncompatible
              (JObj [("schemaId", JNum n)]), false)] /\
        Untyped.additionalUserAgentComponents c'
          = Untyped.additionalUserAgentComponents c) /\
     (Untyped.compatible n ->
        Untyped.sent c' = Untyped.sent c ++
          [(Untyped.ResultSuccess id (Untyped.object []), false)] /\
        Untyped.additionalUserAgentComponents c'
          = if Untyped.is_string (Untyped.command_of data) ServerCommand.initialize
            then Untyped.member "additionalUserAgentComponents" members
            else Untyped.additionalUserAgentComponents c)) /\
  (v = Untyped.undefined ->
     Untyped.sent c' = Untyped.sent c ++
       [(Untyped.ResultSuccess id (Untyped.object []), false)]) /\
  (Untyped.out_of_range v = Normal false ->
     Untyped.additionalUserAgentComponents c'
     = if Untyped.is_string (Untyped.command_of data) ServerCommand.initialize
       then Untyped.member "additionalUserAgentComponents" members
       else Untyped.additionalUserAgentComponents c).
Proof.
  intros Hp Hneg. cbv zeta.
  unfold Untyped.negotiates, Untyped.command_of in *. rewrite Hp in *.
  assert (forall n, Untyped.member "schemaVersion" members = Untyped.json (JNum n) ->
            Untyped.out_of_range (Untyped.member "schemaVersion" members)
            = Normal (negb (bool_decide (Untyped.compatible n)))) as Hnum.
  { intros n ->. rewrite out_of_range_number. f_equal.
    destruct ((n <? minSchemaVersion) || (n >? maxSchemaVersion)) eqn:Hr.
    - rewrite bool_decide_eq_false_2; [reflexivity|].
      rewrite <- untyped_range_check_spec, Hr. discriminate.
    - rewrite bool_decide_eq_true_2; [reflexivity|].
      apply untyped_range_check_spec, Hr. }
  assert (Untyped.member "schemaVersion" members = Untyped.undefined ->
          Untyped.out_of_range (Untyped.member "schemaVersion" members) = Normal false)
    as Hund.
  { intros ->. reflexivity. }
  assert (forall n (P Q : Prop),
            Untyped.member "schemaVersion" members = Untyped.json (JNum n) ->
            Untyped.out_of_range (Untyped.member "schemaVersion" members) = Normal true ->
            P -> (~ Untyped.compatible n -> P) /\ (Untyped.compatible n -> Q)) as Hbad.
  { intros n P Q Hv Hr HP. specialize (Hnum n Hv). rewrite Hr in Hnum.
    split; [auto|]. intros Hc. rewrite (bool_decide_eq_true_2 _ Hc) in Hnum. discriminate. }
  assert (forall n (P Q : Prop),
            Untyped.member "schemaVersion" members = Untyped.json (JNum n) ->
            Untyped.out_of_range (Untyped.member "schemaVersion" members) = Normal false ->
            Q -> (~ Untyped.compatible n -> P) /\ (Untyped.compatible n -> Q)) as Hgood.
  { intros n P Q Hv Hr HQ. specialize (Hnum n Hv). rewrite Hr in Hnum.
    split; [|auto]. intros Hc. rewrite (bool_decide_eq_false_2 _ Hc) in Hnum. discriminate. }
  untyped_unfold. rewrite Hp. simpl.
  destruct (Untyped.is_string (Untyped.member "command" members) ServerCommand.initialize)
    eqn:Hi; simpl.
  - destruct (Untyped.out_of_range (Untyped.member "schemaVersion" members))
      as [[]|e] eqn:Hr; simpl.
    + repeat (split; [reflexivity|]). split; [|split; [|discriminate]].
      * intros n Hv. apply Hbad; [exact Hv | reflexivity |].
        rewrite Hv. split; [untyped_sent; reflexivity | reflexivity].
      * intros Hv. specialize (Hund Hv). discriminate.
    + repeat (split; [reflexivity|]). split; [|split; [|reflexivity]].
      * intros n Hv. apply Hgood; [exact Hv | reflexivity |].
        split; [untyped_sent; reflexivity | reflexivity].
      * intros _. untyped_sent. reflexivity.
    + destruct e; simpl; repeat (split; [reflexivity|]);
        (split; [|split; [|discriminate]]);
        try (intros n Hv; specialize (Hnum n Hv); discriminate);
        try (intros Hv; specialize (Hund Hv); discriminate).
  - simpl in Hneg. rewrite Hneg. simpl.
    destruct (Untyped.out_of_range (Untyped.member "schemaVersion" members))
      as [[]|e] eqn:Hr; simpl.
    + repeat (split; [reflexivity|]). split; [|split; [|discriminate]].
      * intros n Hv. apply Hbad; [exact Hv | reflexivity |].
        rewrite Hv. split; [untyped_sent; reflexivity | reflexivity].
      * intros Hv. specialize (Hund Hv). discriminate.
    + repeat (split; [reflexivity|]). split; [|split; [|reflexivity]].
      * intros n Hv. apply Hgood; [exact Hv | reflexivity |].
        split; [untyped_sent; reflexivity | reflexivity].
      * intros _. untyped_sent. reflexivity.
    + destruct e; simpl; repeat (split; [reflexivity|]);
        (split; [|split; [|discriminate]]);
        try (intros n Hv; specialize (Hnum n Hv); discriminate);
        try (intros Hv; specialize (Hund Hv); discriminate).
Qed.

(** The four kinds of frame: text that does not parse, [null], an object,
    and any other value. *)
Lemma frame_kinds (data : string) :
  Untyped.JSON_parse data = None \/
  Untyped.JSON_parse data = Some JNull \/
  (exists members, Untyped.JSON_parse data = Some (JObj members)) \/
  (exists msg, Untyped.JSON_parse data = Some msg /\ msg <> JNull /\
               forall members, msg <> JObj members).
Proof.
  destruct (Untyped.JSON_parse data) as [[| | | | |members]|]; eauto;
    right; right; right; eexists; (split; [reflexivity|]); split; congruence.
Qed.

(** X5.  Whatever the frame, parsable or not, the code of [receiveMessage]
    itself never changes the session's [receiveLogs] flag or its
    outstanding-ping flag, never sends a ping, never turns [receiveEvents]
    off once it is on, and never touches the rest of the registry: after
    the frame these are as the handler family left them when the frame was
    delegated to one, and as they were before the frame otherwise.  The
    handler families are given the session and the controller and may
    change any of them. *)
Theorem receiveMessage_keeps_flags (data : string) (s : Untyped.Ctx) :
  let b := Untyped.handled data s in
  let out := Untyped.receiveMessage data s in
  Untyped.receiveLogs (Untyped.session out.2) = Untyped.receiveLogs (Untyped.session b) /\
  Untyped._outstandingPing (Untyped.session out.2)
    = Untyped._outstandingPing (Untyped.session b) /\
  Untyped.pings (Untyped.session out.2) = Untyped.pings (Untyped.session b) /\
  (Untyped.receiveEvents (Untyped.session b) = true ->
   Untyped.receiveEvents (Untyped.session out.2) = true) /\
  Untyped.registry out.2 = Untyped.registry b /\
  (Untyped.delegated data = None -> b = s).
Proof.
  cbv zeta.
  split; [|split; [|split; [|split; [|split]]]];
    try (unfold Untyped.handled; intros ->; reflexivity);
    destruct (frame_kinds data) as [Hp|[Hp|[[members Hp]|(msg & Hp & Hn & Ho)]]];
    try (destruct (receiveMessage_unparsed data s Hp) as (-> & -> & _));
    try (destruct (receiveMessage_on_null data s Hp) as (-> & ->));
    try (destruct (receiveMessage_on_scalar data msg s Hp Hn Ho) as (-> & _ & -> & _));
    try (destruct (receiveMessage_on_object data members s Hp)
           as (_ & Hreg & _ & Hlogs & Hping & Hpings & _ & _ & _ & _ & Hev); assumption);
    try reflexivity; try (untyped_sent; reflexivity); try tauto.
Qed.

(** X6.  Whatever the frame, the code of [receiveMessage] itself changes
    [schemaVersion] only for [initialize] and [setApiSchema], the client
    metadata only for [initialize], and [receiveEvents] only for
    [startListening]: for any other frame each is as the handler family
    left it when the frame was delegated to one, and as it was before the
    frame otherwise. *)
Theorem fields_change_only_by_their_commands_or_handlers (data : string) (s : Untyped.Ctx) :
  let b := Untyped.handled data s in
  let out := Untyped.receiveMessage data s in
  (Untyped.negotiates data = false ->
   Untyped.schemaVersion (Untyped.session out.2)
     = Untyped.schemaVersion (Untyped.session b)) /\
  (Untyped.is_string (Untyped.command_of data) ServerCommand.initialize = false ->
   Untyped.additionalUserAgentComponents (Untyped.session out.2)
     = Untyped.additionalUserAgentComponents (Untyped.session b)) /\
  (Untyped.is_string (Untyped.command_of data) ServerCommand.startListening = false ->
   Untyped.receiveEvents (Untyped.session out.2)
     = Untyped.receiveEvents (Untyped.session b)).
Proof.
  cbv zeta.
  destruct (frame_kinds data) as [Hp|[Hp|[[members Hp]|(msg & Hp & Hn & Ho)]]].
  - destruct (receiveMessage_unparsed data s Hp) as (-> & -> & _). auto.
  - destruct (receiveMessage_on_null data s Hp) as (-> & ->). auto.
  - destruct (receiveMessage_on_object data members s Hp)
      as (_ & _ & _ & _ & _ & _ & _ & Hv & Ha & He & _). auto.
  - destruct (receiveMessage_on_scalar data msg s Hp Hn Ho) as (-> & _ & -> & _). auto.
Qed.

End UntypedProperties.

(** * The history of the registry *)

Section HistoryProperties.
Context `{ServerCommand.t} `{Instance.t} `{Constants} `{Collaborators}.

Lemma reachable_step (w w' : World) : reachable w -> step w w' -> reachable w'.
Proof. intros Hw Hs. destruct Hs; constructor; exact Hw. Qed.

Lemma reachable_evolves (w w' : World) : reachable w -> evolves w w' -> reachable w'.
Proof.
  intros Hw He. induction He as [|w1 w2 _ IH Hs]; [exact Hw|].
  eapply reachable_step; [exact IH | exact Hs].
Qed.

(** A property of sessions that survives additions to the journal
    survives every transition but the accepting of a socket, which adds
    one session to those that were registered. *)
Lemma step_keeps_sessions (P : Client -> Prop) (w w' : World) :
  (forall c c' l, journal c' = journal c ++ l -> P c -> P c') ->
  step w w' ->
  Forall P (ClientsController.clients (sockets w)) ->
  (forall s, w' = addSocket s w -> P (sendVersion (shared w) (new_Client s))) ->
  Forall P (ClientsController.clients (sockets w')).
Proof.
  intros Hext Hs IH Hnew. destruct Hs as [w s|w i data|w e|w i|w|w].
  - specialize (Hnew s eq_refl). unfold addSocket. simpl.
    assert (Forall P (ClientsController.clients (sockets w)
                        ++ [sendVersion (shared w) (new_Client s)])) as Hall.
    { apply Forall_app. split; [exact IH|]. constructor; [exact Hnew|constructor]. }
    destruct (ClientsController.pingInterval _);
      destruct (ClientsController.eventForwarder _); simpl; exact Hall.
  - unfold on_message.
    destruct (ClientsController.clients (sockets w) !! i) as [c|] eqn:Hi; [|exact IH].
    destruct (receiveMessage_journal_extends data c (shared w)) as [l Hl].
    destruct (receiveMessage data (c, shared w)) as [r [c' d']]. simpl in *.
    apply Forall_insert; [exact IH|].
    eapply Hext; [exact Hl|].
    eapply Forall_lookup_1; [exact IH | exact Hi].
  - unfold forwardEvent. simpl. apply List.Forall_map.
    eapply Forall_impl; [exact IH|]. intros c Hc. simpl.
    destruct (receiveEvents c); [|exact Hc].
    eapply Hext; [|exact Hc]. reflexivity.
  - unfold close_notification, on_close, scheduleClientCleanup, transport_closed. simpl.
    assert (Forall P
              (alter (set_socket {| readyState := CLOSED |}) i
                 (ClientsController.clients (sockets w)))) as Hall.
    { apply Forall_alter; [exact IH|]. intros c _ Hc.
      eapply (Hext c _ []); [|exact Hc]. rewrite app_nil_r. reflexivity. }
    destruct (ClientsController.cleanupScheduled (sockets w)); simpl; exact Hall.
  - unfold heartbeat_tick. simpl. rewrite pingInterval_callback_spec. simpl.
    apply Forall_List_filter, IH.
  - unfold run_timeouts. apply callbacks_keep. exact IH.
Qed.

(** X18.  [addSocket] registers the new session after those already
    there, and all it has been sent is the version message carrying
    [libVersion], [version], the home id of the shared controller at
    that moment and the schema bounds.  In every state the gateway can
    reach, each registered session was accepted in some earlier state
    that the gateway could reach, and the first thing it was ever sent is
    the version message with the home id the shared controller had in
    that state. *)
Theorem sessions_greeted_with_home_id :
  (forall (s : WebSocket) (w : World),
     exists c,
       ClientsController.clients (sockets (addSocket s w))
         = ClientsController.clients (sockets w) ++ [c] /\
       socket c = s /\
       journal c
         = [SocketSend (VersionMessage libVersion version (Driver_homeId (shared w))
                          minSchemaVersion maxSchemaVersion) false]) /\
  (forall w : World,
     reachable w ->
     Forall (fun c =>
               exists (w0 : World) (s : WebSocket) (rest : list Effect),
                 reachable w0 /\ evolves (addSocket s w0) w /\
                 journal c
                   = SocketSend (VersionMessage libVersion version
                                   (Driver_homeId (shared w0))
                                   minSchemaVersion maxSchemaVersion) false :: rest)
           (ClientsController.clients (sockets w))).
Proof.
  split.
  - intros s w. exists (sendVersion (shared w) (new_Client s)).
    split; [|split; reflexivity].
    unfold addSocket. simpl.
    destruct (ClientsController.pingInterval _);
      destruct (ClientsController.eventForwarder _); reflexivity.
  - intros w Hw.
    assert (forall w w', reachable w -> step w w' ->
              Forall (fun c => exists w0 s rest,
                        reachable w0 /\ evolves (addSocket s w0) w /\
                        journal c = greeting (shared w0) :: rest)
                     (ClientsController.clients (sockets w)) ->
              Forall (fun c => exists w0 s rest,
                        reachable w0 /\ evolves (addSocket s w0) w' /\
                        journal c = greeting (shared w0) :: rest)
                     (ClientsController.clients (sockets w'))) as Hstep.
    { clear w Hw. intros w w' Hw Hs IH.
      apply (step_keeps_sessions _ w w'); [| exact Hs | |].
      - intros c c' l Hj (w0 & s & rest & Hr & He & Hg).
        exists w0, s, (rest ++ l). rewrite Hj, Hg. auto.
      - eapply Forall_impl; [exact IH|].
        intros c (w0 & s & rest & Hr & He & Hg).
        exists w0, s, rest. split; [exact Hr|]. split; [|exact Hg].
        eapply evolves_step; [exact He | exact Hs].
      - intros s ->. exists w, s, []. split; [exact Hw|].
        split; [apply evolves_refl | reflexivity]. }
    induction Hw as [d|w s Hw IH|w i data Hw IH|w e Hw IH|w i Hw IH|w Hw IH|w Hw IH];
      [constructor | ..];
      (eapply Hstep; [exact Hw | constructor | exact IH]).
Qed.

End HistoryProperties.

(** ** The concrete gateway on unvalidated frames *)

Lemma null_frame_is_not_answered_witness :
  let null := Untyped.receiveMessage "null" Untyped.Scenario.start in
  let node := Untyped.receiveMessage (frame "10" "node.refresh_info" "")
                Untyped.Scenario.start in
  let logs := Untyped.receiveMessage (frame "9" "driver.start_listening_logs" "")
                Untyped.Scenario.start in
  (null = (Throw Untyped.TypeError, Untyped.Scenario.start) /\
   Untyped.sent (Untyped.session null.2) = []) /\
  (node.1 = Normal tt /\
   Untyped.sent (Untyped.session node.2)
     = [(Untyped.ResultZWaveError (Untyped.json (JStr "10")) 202 "Node not found", false)]) /\
  (logs.1 = Normal tt /\
   Untyped.sent (Untyped.session logs.2)
     = [(Untyped.ResultSuccess (Untyped.json (JStr "9"))
           (Untyped.resolved (Untyped.json (JObj []))), false)]).
Proof.
  cbv zeta.
  destruct null_frame_is_not_answered as [Hnull Hother].
  split; [|split].
  - rewrite (Hnull "null" Untyped.Scenario.start eq_refl). split; reflexivity.
  - destruct (Hother (frame "10" "node.refresh_info" "")
                (Untyped.Scenario.envelope "10" "node.refresh_info" [])
                Untyped.Scenario.start eq_refl)
      as (Hr & _ & reply & z & Hs & _); [discriminate|].
    split; [exact Hr | reflexivity].
  - destruct (Hother (frame "9" "driver.start_listening_logs" "")
                (Untyped.Scenario.envelope "9" "driver.start_listening_logs" [])
                Untyped.Scenario.start eq_refl)
      as (Hr & _ & reply & z & Hs & _); [discriminate|].
    split; [exact Hr | reflexivity].
Defined.

Lemma negotiation_stores_what_the_frame_carries_witness :
  let bad := Untyped.receiveMessage (frame "3" "initialize" (schema "999"))
               Untyped.Scenario.start in
  let good := Untyped.receiveMessage (frame "4" "setApiSchema" (schema "7"))
                Untyped.Scenario.start in
  let none := Untyped.receiveMessage (frame "8" "initialize" "")
                Untyped.Scenario.start in
  (Untyped.schemaVersion (Untyped.session bad.2) = Untyped.json (JNum 999) /\
   Untyped.sent (Untyped.session bad.2)
     = [(Untyped.ResultError (Untyped.json (JStr "3")) ErrorCode.schemaIncompatible
           (JObj [("schemaId", JNum 999)]), false)]) /\
  (Untyped.schemaVersion (Untyped.session good.2) = Untyped.json (JNum 7) /\
   Untyped.sent (Untyped.session good.2)
     = [(Untyped.ResultSuccess (Untyped.json (JStr "4")) (Untyped.object []), false)]) /\
  (Untyped.schemaVersion (Untyped.session none.2) = Untyped.undefined /\
   Untyped.sent (Untyped.session none.2)
     = [(Untyped.ResultSuccess (Untyped.json (JStr "8")) (Untyped.object []), false)]).
Proof.
  cbv zeta. split; [|split].
  - destruct (negotiation_stores_what_the_frame_carries
                (frame "3" "initialize" (schema "999"))
                [("messageId", JStr "3"); ("command", JStr "initialize");
                 ("schemaVersion", JNum 999)]
                Untyped.Scenario.start)
      as (_ & _ & _ & Hv & _ & _ & _ & _ & Hn & _ & _); [reflexivity | reflexivity |].
    split; [exact Hv|].
    destruct (Hn 999 eq_refl) as [Hbad _].
    apply Hbad. unfold Untyped.compatible. simpl. lia.
  - destruct (negotiation_stores_what_the_frame_carries
                (frame "4" "setApiSchema" (schema "7"))
                [("messageId", JStr "4"); ("command", JStr "setApiSchema");
                 ("schemaVersion", JNum 7)]
                Untyped.Scenario.start)
      as (_ & _ & _ & Hv & _ & _ & _ & _ & Hn & _ & _); [reflexivity | reflexivity |].
    split; [exact Hv|].
    destruct (Hn 7 eq_refl) as [_ Hok].
    apply Hok. unfold Untyped.compatible. simpl. lia.
  - destruct (negotiation_stores_what_the_frame_carries
                (frame "8" "initialize" "")
                [("messageId", JStr "8"); ("command", JStr "initialize")]
                Untyped.Scenario.start)
      as (_ & _ & _ & Hv & _ & _ & _ & _ & _ & Hu & _); [reflexivity | reflexivity |].
    split; [exact Hv|].
    apply Hu. reflexivity.
Defined.

Lemma receiveMessage_keeps_flags_witness :
  let logs := Untyped.receiveMessage (frame "9" "driver.start_listening_logs" "")
                Untyped.Scenario.start in
  Untyped.receiveLogs (Untyped.session Untyped.Scenario.start) = false /\
  Untyped.receiveLogs
    (Untyped.session
       (Untyped.handled (frame "9" "driver.start_listening_logs" "")
          Untyped.Scenario.start)) = true /\
  Untyped.receiveLogs (Untyped.session logs.2) = true /\
  Untyped.registry logs.2 = true.
Proof.
  cbv zeta.
  destruct (receiveMessage_keeps_flags (frame "9" "driver.start_listening_logs" "")
              Untyped.Scenario.start) as (Hl & _ & _ & _ & Hr & _).
  split; [reflexivity|]. split; [reflexivity|].
  split; [rewrite Hl; reflexivity | rewrite Hr; reflexivity].
Defined.

Lemma fields_change_only_by_their_commands_or_handlers_witness :
  let logs := Untyped.receiveMessage (frame "9" "driver.start_listening_logs" "")
                Untyped.Scenario.start in
  Untyped.schemaVersion (Untyped.session logs.2) = Untyped.json (JNum 1) /\
  Untyped.additionalUserAgentComponents (Untyped.session logs.2) = Untyped.undefined /\
  Untyped.receiveEvents (Untyped.session logs.2) = false.
Proof.
  cbv zeta.
  destruct (fields_change_only_by_their_commands_or_handlers
              (frame "9" "driver.start_listening_logs" "") Untyped.Scenario.start)
    as (Hv & Ha & He).
  split; [|split].
  - rewrite Hv; reflexivity.
  - rewrite Ha; reflexivity.
  - rewrite He; reflexivity.
Defined.

Lemma sessions_greeted_with_home_id_witness :
  let w := on_message 0 (frame "2" "startListening" "") one_client in
  reachable w /\
  Forall (fun c =>
            exists (w0 : World) (s : WebSocket) (rest : list Effect),
              reachable w0 /\ evolves (addSocket s w0) w /\
              journal c
                = SocketSend (VersionMessage "10.3.0" "1.23.1" (Some 3735928559) 1 10)
                    false :: rest)
         (ClientsController.clients (sockets w)).
Proof.
  cbv zeta.
  assert (reachable (on_message 0 (frame "2" "startListening" "") one_client)) as Hr.
  { apply reach_message, reachable_one_client. }
  split; [exact Hr|].
  exact (proj2 sessions_greeted_with_home_id _ Hr).
Defined.
